(** * excel_to_calendar: the row-to-event resolution pipeline

    A shallow embedding of [src/excel_to_calendar.py]: the cells of a
    spreadsheet row, the column defaults of [df_cal_format], the calendar
    directory built by [linked_calendars], the start/end resolution of
    [format_date] and the submission step [create_new_event].

    Python integers are [Z]; a blank cell (NaN / NaT) is [None]; a Python
    [dict] is a [gmap]; a raised exception is the [Raise] case of [result]. *)

From Stdlib Require Import ZArith Lia Bool List Ascii String DecimalString.
From stdpp Require Import gmap strings list fin_maps.

Local Open Scope string_scope.
Local Open Scope Z_scope.

(** ** Exceptions and the error monad *)

(** The exceptions that the modelled code can raise.  [Exception msg] is the
    bare [raise Exception(msg)] of [format_date]; [ValueError] and
    [OverflowError] are raised by the [datetime] library, [IndexError] by the
    [[...][0]] of [default_timezone], [HttpError] by the remote service. *)
Inductive exn : Type :=
  | Exception (msg : string)
  | ValueError
  | OverflowError
  | IndexError
  | HttpError (msg : string).

Inductive result (A : Type) : Type :=
  | Ok (a : A)
  | Raise (e : exn).
Arguments Ok {A} a.
Arguments Raise {A} e.

Definition bind {A B : Type} (m : result A) (k : A -> result B) : result B :=
  match m with
  | Ok a => k a
  | Raise e => Raise e
  end.

Notation "'let!' x ':=' m 'in' k" := (bind m (fun x => k))
  (at level 10, x name, m at level 100, k at level 200,
   format "'[v' 'let!'  x  ':='  m  'in' '/' k ']'").

(** [df.apply(f, axis=1)]: [f] on every row in order, stopping at the first
    exception. *)
Fixpoint apply_rows {A B : Type} (f : A -> result B) (df : list A)
  : result (list B) :=
  match df with
  | [] => Ok []
  | r :: rest =>
      let! y := f r in
      let! ys := apply_rows f rest in
      Ok (y :: ys)
  end.

(** The spec's name for the failure of a row without a Start Date. *)
Definition MissingRequiredField : exn :=
  Exception "Event must contain a Start Date".

(** ** Decimal formatting, as done by ["%04d"] and ["%02d"] *)

Definition decimal (n : Z) : string :=
  NilZero.string_of_int (Z.to_int n).

Fixpoint zeros (k : nat) : string :=
  match k with
  | O => EmptyString
  | S k' => String "0" (zeros k')
  end.

(** [zfill w n] is ["%0wd" % n] for [0 <= n]: the decimal digits of [n],
    padded on the left with zeros up to width [w], never truncated. *)
Definition zfill (w : nat) (n : Z) : string :=
  let s := decimal n in
  (zeros (w - String.length s) ++ s)%string.

(** ** The calendar arithmetic of the [datetime] library *)

Definition is_leap (y : Z) : bool :=
  (y mod 4 =? 0) && (negb (y mod 100 =? 0) || (y mod 400 =? 0)).

Definition days_in_month (y m : Z) : Z :=
  if m =? 2 then (if is_leap y then 29 else 28)
  else if (m =? 4) || (m =? 6) || (m =? 9) || (m =? 11) then 30
  else 31.

(** Days in the months before month [m] of a year that is not a leap year. *)
Definition DAYS_BEFORE_MONTH (m : Z) : Z :=
  match m with
  | 1 => 0 | 2 => 31 | 3 => 59 | 4 => 90 | 5 => 120 | 6 => 151
  | 7 => 181 | 8 => 212 | 9 => 243 | 10 => 273 | 11 => 304 | 12 => 334
  | _ => 0
  end.

Definition days_before_year (y : Z) : Z :=
  let y' := y - 1 in
  y' * 365 + y' / 4 - y' / 100 + y' / 400.

Definition days_before_month (y m : Z) : Z :=
  DAYS_BEFORE_MONTH m + (if (2 <? m) && is_leap y then 1 else 0).

(** Proleptic Gregorian ordinal: 1 is 0001-01-01. *)
Definition ymd2ord (y m d : Z) : Z :=
  days_before_year y + days_before_month y m + d.

Definition MINYEAR : Z := 1.
Definition MAXYEAR : Z := 9999.

Definition check_date_fields (y m d : Z) : bool :=
  (MINYEAR <=? y) && (y <=? MAXYEAR) && (1 <=? m) && (m <=? 12)
  && (1 <=? d) && (d <=? days_in_month y m).

Definition check_time_fields (h mi s us : Z) : bool :=
  (0 <=? h) && (h <=? 23) && (0 <=? mi) && (mi <=? 59)
  && (0 <=? s) && (s <=? 59) && (0 <=? us) && (us <=? 999999).

(** [datetime.date] *)
Module Date.
Record t : Type := mk { year : Z; month : Z; day : Z }.

(** [str(date)], that is [date.isoformat()]: ["%04d-%02d-%02d"]. *)
Definition isoformat (d : t) : string :=
  (zfill 4 (year d) ++ "-" ++ zfill 2 (month d) ++ "-" ++ zfill 2 (day d))%string.
End Date.

(** [datetime.time], the type of a time-of-day cell. *)
Module Time.
Record t : Type :=
  mk { hour : Z; minute : Z; second : Z; microsecond : Z }.

Definition ok (x : t) : bool :=
  check_time_fields (hour x) (minute x) (second x) (microsecond x).
End Time.

(** [pandas.Timestamp], the type of a date cell. *)
Module Timestamp.
Record t : Type :=
  mk { year : Z; month : Z; day : Z;
       hour : Z; minute : Z; second : Z;
       microsecond : Z; nanosecond : Z }.

(** [Timestamp.date()] *)
Definition date (x : t) : Date.t :=
  Date.mk (year x) (month x) (day x).

(** A Timestamp is a calendar date and a time of day between
    [Timestamp.min] (in 1677) and [Timestamp.max] (in 2262). *)
Definition ok (x : t) : bool :=
  (1677 <=? year x) && (year x <=? 2262)
  && check_date_fields (year x) (month x) (day x)
  && check_time_fields (hour x) (minute x) (second x) (microsecond x)
  && (0 <=? nanosecond x) && (nanosecond x <=? 999).
End Timestamp.

(** [datetime.datetime] (naive: no tzinfo) *)
Module Datetime.
Record t : Type :=
  mk { year : Z; month : Z; day : Z;
       hour : Z; minute : Z; second : Z; microsecond : Z }.

Definition date (x : t) : Date.t :=
  Date.mk (year x) (month x) (day x).

(** [dt.datetime(year, month, day, hour, minute)]: the constructor checks
    the ranges of its arguments; seconds and microseconds default to 0. *)
Definition new (y m d h mi : Z) : result t :=
  if check_date_fields y m d && check_time_fields h mi 0 0
  then Ok (mk y m d h mi 0 0)
  else Raise ValueError.

(** Seconds since the midnight that starts 0001-01-01 (ordinal 1 is day 1). *)
Definition to_seconds (x : t) : Z :=
  ((ymd2ord (year x) (month x) (day x) * 24 + hour x) * 60 + minute x) * 60
  + second x.

(** The calendar day after [(y, m, d)]. *)
Definition next_day (y m d : Z) : Z * Z * Z :=
  if d <? days_in_month y m then (y, m, d + 1)
  else if m <? 12 then (y, m + 1, 1)
  else (y + 1, 1, 1).

(** [x + dt.timedelta(hours=1)]: the hour moves on by one; from hour 23
    the date moves to the next day, and past 9999-12-31 the library raises
    OverflowError. *)
Definition add_one_hour (x : t) : result t :=
  if hour x <? 23
  then Ok (mk (year x) (month x) (day x)
              (hour x + 1) (minute x) (second x) (microsecond x))
  else
    let '(y, m, d) := next_day (year x) (month x) (day x) in
    if y <=? MAXYEAR
    then Ok (mk y m d 0 (minute x) (second x) (microsecond x))
    else Raise OverflowError.

(** [datetime.isoformat()]: ["%04d-%02d-%02dT%02d:%02d:%02d"], followed by
    [".%06d"] of the microseconds when they are not 0. *)
Definition isoformat (x : t) : string :=
  (zfill 4 (year x) ++ "-" ++ zfill 2 (month x) ++ "-" ++ zfill 2 (day x)
   ++ "T" ++ zfill 2 (hour x) ++ ":" ++ zfill 2 (minute x)
   ++ ":" ++ zfill 2 (second x)
   ++ (if (microsecond x =? 0)%Z then EmptyString
       else "." ++ zfill 6 (microsecond x)))%string.
End Datetime.

(** ** Rows and wire values *)

(** A JSON-like value held by the [start] / [end] dictionaries: a string,
    or the NaN of a blank cell copied as it is. *)
Inductive jvalue : Type :=
  | JStr (s : string)
  | JNaN.

Definition of_cell (c : option string) : jvalue :=
  match c with
  | Some s => JStr s
  | None => JNaN
  end.

(** One row of the DataFrame, after the renaming of ['Summary'] and
    ['Description'] to ['summary'] and ['description'] (which changes no
    value).  A blank cell is [None]. *)
Record Row : Type := mkRow {
  summary : option string;
  description : option string;
  Start_Date : option Timestamp.t;
  Start_Time : option Time.t;
  End_Date : option Timestamp.t;
  End_Time : option Time.t;
  Start_Time_Zone : option string;
  End_Time_Zone : option string;
  Calendar_Name : option string
}.

(** ** [format_date] *)

Definition format_date (row : Row) : result (gmap string jvalue * gmap string jvalue) :=
  match Start_Date row with
  | None => Raise (Exception "Event must contain a Start Date")
  | Some d =>
      match Start_Time row with
      | None =>
          let start_date := Date.isoformat (Timestamp.date d) in
          let end_date :=
            match End_Date row with
            | None => start_date
            | Some e => Date.isoformat (Timestamp.date e)
            end in
          Ok ({[ "date" := JStr start_date ]}, {[ "date" := JStr end_date ]})
      | Some t =>
          let! start_datetime :=
            Datetime.new (Timestamp.year d) (Timestamp.month d)
              (Timestamp.day d) (Time.hour t) (Time.minute t) in
          let! end_datetime :=
            match End_Time row with
            | None => Datetime.add_one_hour start_datetime
            | Some t' =>
                match End_Date row with
                | None =>
                    Datetime.new (Timestamp.year d) (Timestamp.month d)
                      (Timestamp.day d) (Time.hour t') (Time.minute t')
                | Some d' =>
                    Datetime.new (Timestamp.year d') (Timestamp.month d')
                      (Timestamp.day d') (Time.hour t') (Time.minute t')
                end
            end in
          Ok (<[ "dateTime" := JStr (Datetime.isoformat start_datetime) ]>
                {[ "timeZone" := of_cell (Start_Time_Zone row) ]},
              <[ "dateTime" := JStr (Datetime.isoformat end_datetime) ]>
                {[ "timeZone" := of_cell (End_Time_Zone row) ]})
      end
  end.

(** ** Column defaults and the calendar directory *)

(** [Series.fillna(v)]: a blank cell becomes [v], any other cell is kept. *)
Definition fillna {A : Type} (v : A) (c : option A) : option A :=
  match c with
  | None => Some v
  | Some _ => c
  end.

(** The four [fillna] lines of [df_cal_format], on one row. *)
Definition fill_defaults (tz : string) (row : Row) : Row :=
  {| summary := summary row;
     description := fillna EmptyString (description row);
     Start_Date := Start_Date row;
     Start_Time := Start_Time row;
     End_Date := End_Date row;
     End_Time := End_Time row;
     Start_Time_Zone := fillna tz (Start_Time_Zone row);
     End_Time_Zone := fillna tz (End_Time_Zone row);
     Calendar_Name := fillna "Primary" (Calendar_Name row) |}.

(** An item of [settings().list()]. *)
Record Setting : Type := mkSetting { setting_id : string; setting_value : string }.

(** An item of [calendarList().list()]. *)
Record CalendarListEntry : Type :=
  mkCal { cal_summary : string; cal_id : string; cal_accessRole : string }.

(** A row of the DataFrame returned by [df_cal_format]: the row with its
    defaults filled, and the new columns ['id'], ['start'] and ['end']. *)
Record FormattedRow : Type := mkFormatted {
  cells : Row;
  id : option string;
  start : gmap string jvalue;
  end_ : gmap string jvalue
}.

(** The [body] of [events().insert]. *)
Record EventBody : Type := mkBody {
  body_summary : jvalue;
  body_description : jvalue;
  body_start : gmap string jvalue;
  body_end : gmap string jvalue
}.

Definition access_roles : gset string := {[ "owner"; "writer" ]}.

(** [{ cal['summary'] : cal['id'] for cal in calendars }]: a later entry
    with the same summary replaces an earlier one. *)
Definition dict_of_calendars (calendars : list CalendarListEntry)
  : gmap string string :=
  fold_left (fun m cal => <[ cal_summary cal := cal_id cal ]> m) calendars ∅.

Section Pipeline.
(** What the remote service answers to an [events().insert]. *)
Context {EventResult : Type}.

(** The Google Calendar [service], as far as the program uses it; every
    call can raise. *)
Record Service : Type := mkService {
  settings_list : result (list Setting);
  calendarList_list : result (list CalendarListEntry);
  events_insert : option string -> EventBody -> result EventResult
}.

Definition default_timezone (service : Service) : result string :=
  let! items := settings_list service in
  match map setting_value
          (List.filter (fun s => String.eqb (setting_id s) "timezone") items)
  with
  | v :: _ => Ok v
  | [] => Raise IndexError
  end.

Definition linked_calendars (service : Service) (can_edit : bool)
  : result (gmap string string) :=
  let! calendars := calendarList_list service in
  if can_edit
  then Ok (dict_of_calendars
             (List.filter
                (fun cal => bool_decide (cal_accessRole cal ∈ access_roles))
                calendars))
  else Ok (dict_of_calendars calendars).

(** [Series.map(calendars)]: a name that is not a key gives a blank. *)
Definition map_calendars (calendars : gmap string string)
    (name : option string) : option string :=
  match name with
  | Some n => calendars !! n
  | None => None
  end.

Definition df_cal_format (df : list Row) (service : Service)
  : result (list FormattedRow) :=
  let! tz := default_timezone service in
  let df := map (fill_defaults tz) df in
  let! calendars := linked_calendars service true in
  let calendars := <[ "Primary" := "primary" ]> calendars in
  apply_rows
    (fun row =>
       let! se := format_date row in
       Ok {| cells := row;
             id := map_calendars calendars (Calendar_Name row);
             start := fst se;
             end_ := snd se |})
    df.

Definition create_new_event (row : FormattedRow) (service : Service)
  : result EventResult :=
  let cal_id := id row in
  let event_dict :=
    {| body_summary := of_cell (summary (cells row));
       body_description := of_cell (description (cells row));
       body_start := start row;
       body_end := end_ row |} in
  events_insert service cal_id event_dict.

(** [xlsx_to_calendar], from the DataFrame read from the file on. *)
Definition xlsx_to_calendar (df : list Row) (service : Service)
  : result (list EventResult) :=
  let! df := df_cal_format df service in
  apply_rows (fun row => create_new_event row service) df.
End Pipeline.
Arguments Service : clear implicits.

(** ** Reading the wire strings back *)

Definition digit_value (c : ascii) : option Z :=
  let n := Z.of_nat (nat_of_ascii c) in
  if (48 <=? n) && (n <=? 57) then Some (n - 48) else None.

(** The number written by the decimal digits [cs]; [None] when some
    character is not a digit. *)
Fixpoint read_digits (acc : Z) (cs : list ascii) : option Z :=
  match cs with
  | [] => Some acc
  | c :: rest =>
      match digit_value c with
      | Some v => read_digits (acc * 10 + v) rest
      | None => None
      end
  end.

Definition is_char (c : ascii) (x : ascii) : bool := Ascii.eqb c x.

(** [date.fromisoformat] on the ten characters of [YYYY-MM-DD]. *)
Definition read_date (cs : list ascii) : option Date.t :=
  match cs with
  | [y1; y2; y3; y4; s1; m1; m2; s2; d1; d2] =>
      match read_digits 0 [y1; y2; y3; y4],
            read_digits 0 [m1; m2], read_digits 0 [d1; d2] with
      | Some y, Some m, Some d =>
          if is_char "-" s1 && is_char "-" s2 && check_date_fields y m d
          then Some (Date.mk y m d)
          else None
      | _, _, _ => None
      end
  | _ => None
  end.

Definition date_fromisoformat (s : string) : option Date.t :=
  read_date (list_ascii_of_string s).

(** [datetime.fromisoformat] on the nineteen characters of
    [YYYY-MM-DDTHH:MM:SS]. *)
Definition datetime_fromisoformat (s : string) : option Datetime.t :=
  let cs := list_ascii_of_string s in
  match read_date (firstn 10 cs), skipn 10 cs with
  | Some d, [sep; h1; h2; c1; m1; m2; c2; s1; s2] =>
      match read_digits 0 [h1; h2], read_digits 0 [m1; m2],
            read_digits 0 [s1; s2] with
      | Some h, Some mi, Some sec =>
          if is_char "T" sep && is_char ":" c1 && is_char ":" c2
             && check_time_fields h mi sec 0
          then Some (Datetime.mk (Date.year d) (Date.month d) (Date.day d)
                       h mi sec 0)
          else None
      | _, _, _ => None
      end
  | _, _ => None
  end.

(** ** Well-formed rows *)

Definition cell_ok {A : Type} (ok : A -> bool) (c : option A) : bool :=
  match c with
  | Some x => ok x
  | None => true
  end.

(** Every date cell of the row is a Timestamp and every time cell a
    [datetime.time]. *)
Definition row_ok (row : Row) : bool :=
  cell_ok Timestamp.ok (Start_Date row) && cell_ok Time.ok (Start_Time row)
  && cell_ok Timestamp.ok (End_Date row) && cell_ok Time.ok (End_Time row).

(** ** Definitions used by the statements and the proofs *)

Definition digit (k : Z) : ascii := ascii_of_nat (48 + Z.to_nat k).

Definition two_digits (n : Z) : string :=
  String (digit (n / 10)) (String (digit (n mod 10)) EmptyString).

Definition four_digits (n : Z) : string :=
  String (digit (n / 1000)) (String (digit (n / 100 mod 10))
    (String (digit (n / 10 mod 10)) (String (digit (n mod 10)) EmptyString))).

Ltac calc t := let v := eval vm_compute in t in change t with v.

Ltac eval_months :=
  match goal with
  | |- context [DAYS_BEFORE_MONTH ?k] => progress calc (DAYS_BEFORE_MONTH k)
  | |- context [2 <? ?k] => progress calc (2 <? k)
  end.

(** The instant of a timed side, read back from its ["dateTime"] string. *)
Definition wire_datetime (side : gmap string jvalue) : option Datetime.t :=
  match side !! "dateTime" with
  | Some (JStr s) => datetime_fromisoformat s
  | _ => None
  end.

(** The timed side made of an instant and a time zone cell. *)
Definition timed_side (x : Datetime.t) (tz : option string)
  : gmap string jvalue :=
  <[ "dateTime" := JStr (Datetime.isoformat x) ]> {[ "timeZone" := of_cell tz ]}.

(** [combine(d, t)]: the day of [d] with the hour and the minute of [t]. *)
Definition combine (d : Timestamp.t) (t : Time.t) : Datetime.t :=
  Datetime.mk (Timestamp.year d) (Timestamp.month d) (Timestamp.day d)
    (Time.hour t) (Time.minute t) 0 0.

Definition all_blank_but (name : option string) (t : option Time.t) : Row :=
  mkRow (Some "Review") (Some "Quarterly") None t
    (Some (Timestamp.mk 2024 3 3 0 0 0 0 0)) (Some (Time.mk 10 15 0 0))
    (Some "Europe/Paris") (Some "Asia/Tokyo") name.

Definition three_days : Row :=
  mkRow (Some "Trip") None
    (Some (Timestamp.mk 2024 3 1 0 0 0 0 0)) None
    (Some (Timestamp.mk 2024 3 3 0 0 0 0 0)) (Some (Time.mk 18 0 0 0))
    (Some "Europe/Paris") None None.

(** The row with its End Date cell replaced by [c]. *)
Definition set_End_Date (c : option Timestamp.t) (row : Row) : Row :=
  mkRow (summary row) (description row) (Start_Date row) (Start_Time row)
    c (End_Time row) (Start_Time_Zone row) (End_Time_Zone row)
    (Calendar_Name row).

(** The end of the resolved pair falls on the calendar day of Start Date. *)
Definition ends_on_start_day (row : Row) : Prop :=
  exists d s e edt,
    Start_Date row = Some d
    /\ format_date row = Ok (s, e)
    /\ wire_datetime e = Some edt
    /\ Datetime.date edt = Timestamp.date d.

Definition late_evening : Row :=
  mkRow (Some "Call") None
    (Some (Timestamp.mk 2024 3 1 0 0 0 0 0)) (Some (Time.mk 23 30 0 0))
    None None (Some "Europe/Paris") (Some "Europe/Paris") None.

Definition past_midnight : Row :=
  mkRow (Some "Night shift") None
    (Some (Timestamp.mk 2024 3 1 0 0 0 0 0)) (Some (Time.mk 23 30 0 0))
    None (Some (Time.mk 0 30 0 0)) (Some "Europe/Paris") (Some "Europe/Paris")
    None.

Definition conference : Row :=
  mkRow (Some "Conference") (Some "Keynote and panels")
    (Some (Timestamp.mk 2024 3 1 0 0 0 0 0)) (Some (Time.mk 9 5 0 0))
    (Some (Timestamp.mk 2024 3 2 0 0 0 0 0)) (Some (Time.mk 17 45 0 0))
    (Some "America/New_York") (Some "Asia/Tokyo") (Some "Work").

(** The time of day [t] with its seconds and microseconds replaced. *)
Definition set_seconds (s us : Z) (t : Time.t) : Time.t :=
  Time.mk (Time.hour t) (Time.minute t) s us.

(** The row whose Start Time and End Time cells, when present, carry the
    given seconds and microseconds. *)
Definition with_seconds (s1 us1 s2 us2 : Z) (row : Row) : Row :=
  mkRow (summary row) (description row) (Start_Date row)
    (option_map (set_seconds s1 us1) (Start_Time row))
    (End_Date row)
    (option_map (set_seconds s2 us2) (End_Time row))
    (Start_Time_Zone row) (End_Time_Zone row) (Calendar_Name row).

(** [frow] is the row [row] as [df_cal_format] returns it, for the default
    time zone [tz] and the fetched calendars [cals]. *)
Definition formatted (tz : string) (cals : gmap string string)
    (row : Row) (frow : FormattedRow) : Prop :=
  cells frow = fill_defaults tz row
  /\ id frow = map_calendars (<[ "Primary" := "primary" ]> cals)
                 (Calendar_Name (fill_defaults tz row))
  /\ format_date (fill_defaults tz row) = Ok (start frow, end_ frow).

Definition two_primaries : Service unit :=
  mkService
    (Ok [mkSetting "locale" "en"; mkSetting "timezone" "Europe/Paris"])
    (Ok [mkCal "Work" "work@group.calendar.google.com" "owner";
         mkCal "Primary" "other@group.calendar.google.com" "writer";
         mkCal "Holidays" "holidays@group.calendar.google.com" "reader"])
    (fun cal_id body =>
       match cal_id with
       | Some _ => Ok tt
       | None => Raise (HttpError "Missing required parameter calendarId")
       end).

Definition day_row (name : option string) : Row :=
  mkRow (Some "Picnic") None (Some (Timestamp.mk 2024 3 1 0 0 0 0 0))
    None None None None None name.

Definition day_frow (name : string) (cal_id : option string) : FormattedRow :=
  mkFormatted
    (mkRow (Some "Picnic") (Some EmptyString)
       (Some (Timestamp.mk 2024 3 1 0 0 0 0 0)) None None None
       (Some "Europe/Paris") (Some "Europe/Paris") (Some name))
    cal_id
    {[ "date" := JStr "2024-03-01" ]} {[ "date" := JStr "2024-03-01" ]}.

(** [{"date": "YYYY-MM-DD"}] and nothing else. *)
Definition all_day_shape (side : gmap string jvalue) : Prop :=
  exists str,
    side = {[ "date" := JStr str ]} /\ is_Some (date_fromisoformat str).

(** [{"dateTime": "YYYY-MM-DDTHH:MM:SS", "timeZone": tz}] and nothing else. *)
Definition timed_shape (side : gmap string jvalue) : Prop :=
  exists iso tz,
    side = <[ "dateTime" := JStr iso ]> {[ "timeZone" := JStr tz ]}
    /\ is_Some (datetime_fromisoformat iso).


Definition untitled : Row :=
  mkRow None None (Some (Timestamp.mk 2024 3 1 0 0 0 0 0)) None None None
    None None None.

Definition no_start_date : Row :=
  mkRow (Some "Dentist") None None (Some (Time.mk 9 0 0 0)) None None
    None None None.

(** The body that [create_new_event] submits for a formatted row. *)
Definition event_dict (frow : FormattedRow) : EventBody :=
  mkBody (of_cell (summary (cells frow))) (of_cell (description (cells frow)))
    (start frow) (end_ frow).

(** ** Further definitions for the properties of the whole program *)

(** The Timestamp [d] with its time of day replaced by that of [t] and the
    nanoseconds [ns]; its date is kept. *)
Definition set_clock (t : Time.t) (ns : Z) (d : Timestamp.t) : Timestamp.t :=
  Timestamp.mk (Timestamp.year d) (Timestamp.month d) (Timestamp.day d)
    (Time.hour t) (Time.minute t) (Time.second t) (Time.microsecond t) ns.

(** The row whose Start Date and End Date cells, when present, carry the
    given times of day. *)
Definition with_clocks (t1 : Time.t) (ns1 : Z) (t2 : Time.t) (ns2 : Z)
    (row : Row) : Row :=
  mkRow (summary row) (description row)
    (option_map (set_clock t1 ns1) (Start_Date row)) (Start_Time row)
    (option_map (set_clock t2 ns2) (End_Date row)) (End_Time row)
    (Start_Time_Zone row) (End_Time_Zone row) (Calendar_Name row).

(** The string held under [key], when there is one. *)
Definition wire_string (key : string) (side : gmap string jvalue)
  : option string :=
  match side !! key with
  | Some (JStr s) => Some s
  | _ => None
  end.

Definition half_filled : Row :=
  mkRow None None
    (Some (Timestamp.mk 2024 12 31 0 0 0 0 0)) (Some (Time.mk 23 0 0 0))
    None None None (Some "Asia/Tokyo") None.

(** The calendar can be edited: its access role is one of [access_roles]. *)
Definition editable (cal : CalendarListEntry) : bool :=
  bool_decide (cal_accessRole cal ∈ access_roles).

Definition named (name : string) (cal : CalendarListEntry) : bool :=
  String.eqb (cal_summary cal) name.

(** The last calendar of the list whose summary is [name]. *)
Definition last_named (name : string) (calendars : list CalendarListEntry)
  : option CalendarListEntry :=
  List.find (named name) (rev calendars).

Definition is_timezone (s : Setting) : bool :=
  String.eqb (setting_id s) "timezone".

Definition three_zones : Service unit :=
  mkService
    (Ok [mkSetting "locale" "en"; mkSetting "timezone" "Europe/Paris";
         mkSetting "timezone" "Asia/Tokyo"])
    (Ok [mkCal "Team" "first@group.calendar.google.com" "owner";
         mkCal "Team" "second@group.calendar.google.com" "reader";
         mkCal "Team" "third@group.calendar.google.com" "writer";
         mkCal "Holidays" "holidays@group.calendar.google.com" "reader"])
    (fun _ _ => Ok tt).

Definition no_zone : Service unit :=
  mkService (Ok [mkSetting "locale" "en"; mkSetting "weekStart" "1"])
    (Raise (HttpError "backend error"))
    (fun _ _ => Ok tt).

(** ** The remote calendar as a state machine *)

Section Remote.
(** The answers [R] and the states [S] of the remote calendar, and what an
    [events().insert(...).execute()] does to it: a new state and an answer
    or an exception. *)
Context {R S : Type}.
Variable insert : S -> option string -> EventBody -> S * result R.

(** [df.apply(create_new_event, axis=1, service=service)] with its effect
    on the remote calendar: the rows are submitted in order, each row once,
    and the first exception stops the loop. *)
Fixpoint submit_rows (df : list FormattedRow) (st : S)
  : S * result (list R) :=
  match df with
  | [] => (st, Ok [])
  | row :: rest =>
      match insert st (id row) (event_dict row) with
      | (st', Ok res) =>
          match submit_rows rest st' with
          | (st'', Ok results) => (st'', Ok (res :: results))
          | (st'', Raise e) => (st'', Raise e)
          end
      | (st', Raise e) => (st', Raise e)
      end
  end.

(** The service as the program sees it while the remote calendar is in
    state [st]; the two fetches only read. *)
Definition service_at (settings : result (list Setting))
    (calendars : result (list CalendarListEntry)) (st : S) : Service R :=
  mkService settings calendars
    (fun cal_id body => snd (insert st cal_id body)).

(** [xlsx_to_calendar] with its effect on the remote calendar: the whole
    DataFrame is formatted before the first row is submitted. *)
Definition run_xlsx_to_calendar (settings : result (list Setting))
    (calendars : result (list CalendarListEntry)) (df : list Row) (st : S)
  : S * result (list R) :=
  match df_cal_format df (service_at settings calendars st) with
  | Ok out => submit_rows out st
  | Raise e => (st, Raise e)
  end.
End Remote.

(** A remote calendar that records the insertions it receives and rejects
    the ones without a calendar id. *)
Definition recording (log : list (option string * EventBody))
    (cal_id : option string) (body : EventBody)
  : list (option string * EventBody) * result unit :=
  ((log ++ [(cal_id, body)])%list,
   match cal_id with
   | Some _ => Ok tt
   | None => Raise (HttpError "Missing required parameter calendarId")
   end).

Definition paris_settings : result (list Setting) :=
  Ok [mkSetting "timezone" "Europe/Paris"].

Definition work_calendars : result (list CalendarListEntry) :=
  Ok [mkCal "Work" "work@group.calendar.google.com" "owner"].

(** ** Credentials *)

Section Auth.
(** The credentials and the service objects of the Google libraries. *)
Context {Creds Svc : Type}.

(** What [get_calendar_service] uses of them: the attributes [valid],
    [expired] and [refresh_token] (as a truth value) of credentials,
    [creds.refresh(Request())], which gives the refreshed credentials or
    raises, the login flow [run_local_server], and [build]. *)
Record AuthEnv : Type := mkAuthEnv {
  creds_valid : Creds -> bool;
  creds_expired : Creds -> bool;
  creds_refresh_token : Creds -> bool;
  creds_refresh : Creds -> result Creds;
  run_local_server : result Creds;
  build : Creds -> result Svc
}.

(** [get_calendar_service]: from the credentials stored in [token.json]
    ([None] when the file does not exist) to the credentials stored in it
    afterwards and the returned service; [Ok None] is the [None] returned
    after an HttpError of [build] has been printed. *)
Definition get_calendar_service (env : AuthEnv) (token_json : option Creds)
  : option Creds * result (option Svc) :=
  let creds := token_json in
  let authenticated : result (Creds * option Creds) :=
    match creds with
    | Some c =>
        if creds_valid env c then Ok (c, token_json)
        else if creds_expired env c && creds_refresh_token env c
        then let! c' := creds_refresh env c in Ok (c', Some c')
        else let! c' := run_local_server env in Ok (c', Some c')
    | None => let! c' := run_local_server env in Ok (c', Some c')
    end in
  match authenticated with
  | Raise e => (token_json, Raise e)
  | Ok (c, token_json') =>
      (token_json',
       match build env c with
       | Ok service => Ok (Some service)
       | Raise (HttpError _) => Ok None
       | Raise e => Raise e
       end)
  end.
End Auth.
Arguments AuthEnv : clear implicits.

(** Credentials as an expiry flag and a refresh token, for the examples. *)
Definition toy_auth (build_result : nat -> result string)
  : AuthEnv (bool * option nat) string :=
  mkAuthEnv
    (fun c => negb (fst c))
    (fun c => fst c)
    (fun c => match snd c with Some _ => true | None => false end)
    (fun c => match snd c with
              | Some n => Ok (false, Some (S n))
              | None => Raise ValueError
              end)
    (Ok (false, Some O))
    (fun c => match snd c with
              | Some n => build_result n
              | None => Raise ValueError
              end).

(** ** The diagnostic listing of events *)

(** An item of [events().list()]: its ['start'] and its ['summary']. *)
Record Event : Type := mkEvent {
  event_start : gmap string jvalue;
  event_summary : string
}.

(** [event['start'].get('dateTime', event['start'].get('date'))] *)
Definition shown_start (ev : Event) : option jvalue :=
  match event_start ev !! "dateTime" with
  | Some v => Some v
  | None => event_start ev !! "date"
  end.

(** [str] of the value that [print] receives. *)
Definition str_shown (v : option jvalue) : string :=
  match v with
  | Some (JStr s) => s
  | Some JNaN => "nan"
  | None => "None"
  end.

(** The lines printed by [print_upcoming_events] when the service answers
    [events]; a failing fetch raises after the first line. *)
Definition print_upcoming_events (events : result (list Event))
    (num_events : Z) : list string * result unit :=
  let line1 := ("Getting the upcoming " ++ decimal num_events ++ " events")%string in
  match events with
  | Raise e => ([line1], Raise e)
  | Ok [] => ([line1; "No upcoming events found."], Ok tt)
  | Ok events =>
      ((line1 :: map (fun ev => (str_shown (shown_start ev) ++ " "
                                 ++ event_summary ev)%string) events)%list,
       Ok tt)
  end.

(** The two sides that [format_date] returns for [conference]. *)
Definition conference_start : gmap string jvalue :=
  <[ "dateTime" := JStr "2024-03-01T09:05:00" ]>
    {[ "timeZone" := JStr "America/New_York" ]}.

Definition conference_end : gmap string jvalue :=
  <[ "dateTime" := JStr "2024-03-02T17:45:00" ]>
    {[ "timeZone" := JStr "Asia/Tokyo" ]}.

(** The stored credentials [c] are not valid, but expired with a refresh
    token: [get_calendar_service] refreshes them. *)
Definition refresh_path {Creds Svc : Type} (env : AuthEnv Creds Svc)
    (token_json : option Creds) (c : Creds) : Prop :=
  token_json = Some c /\ creds_valid env c = false
  /\ creds_expired env c && creds_refresh_token env c = true.

(** There are no stored credentials, or they are not valid and cannot be
    refreshed: [get_calendar_service] runs the login flow. *)
Definition login_path {Creds Svc : Type} (env : AuthEnv Creds Svc)
    (token_json : option Creds) : Prop :=
  token_json = None
  \/ exists c, token_json = Some c /\ creds_valid env c = false
               /\ creds_expired env c && creds_refresh_token env c = false.

(** Credentials whose refresh is refused, while a login would succeed. *)
Definition refresh_fails : AuthEnv (bool * option nat) string :=
  mkAuthEnv
    (fun c => negb (fst c))
    (fun c => fst c)
    (fun c => match snd c with Some _ => true | None => false end)
    (fun c => Raise (Exception "invalid_grant"))
    (Ok (false, Some O))
    (fun c => Ok "calendar v3").

(** * Properties *)

(** ** Decimal formatting *)

Lemma below_by_cases (P : Z -> bool) (b : Z) :
  forallb (fun k => P (Z.of_nat k)) (seq 0 (Z.to_nat b)) = true ->
  forall n, 0 <= n < b -> P n = true.
Proof.
  intros Hall n Hn.
  rewrite forallb_forall in Hall.
  specialize (Hall (Z.to_nat n)).
  rewrite Z2Nat.id in Hall by lia.
  apply Hall, in_seq. lia.
Qed.

Lemma zfill2_digits n : 0 <= n < 100 -> zfill 2 n = two_digits n.
Proof.
  intros Hn. apply String.eqb_eq.
  apply (below_by_cases (fun k => String.eqb (zfill 2 k) (two_digits k)) 100);
    [vm_compute; reflexivity | lia].
Qed.

Lemma zfill4_digits n : 0 <= n < 10000 -> zfill 4 n = four_digits n.
Proof.
  intros Hn. apply String.eqb_eq.
  apply (below_by_cases (fun k => String.eqb (zfill 4 k) (four_digits k)) 10000);
    [vm_compute; reflexivity | lia].
Qed.

Lemma digit_value_digit k : 0 <= k <= 9 -> digit_value (digit k) = Some k.
Proof.
  intros Hk.
  assert (Hc : k = 0 \/ k = 1 \/ k = 2 \/ k = 3 \/ k = 4 \/ k = 5 \/ k = 6
               \/ k = 7 \/ k = 8 \/ k = 9) by lia.
  destruct Hc as [->|[->|[->|[->|[->|[->|[->|[->|[->| ->]]]]]]]]]; reflexivity.
Qed.

Lemma read_two_digits n :
  0 <= n < 100 ->
  read_digits 0 (list_ascii_of_string (two_digits n)) = Some n.
Proof.
  intros Hn. unfold two_digits. cbn [list_ascii_of_string read_digits].
  assert (0 <= n / 10 <= 9) by (Z.div_mod_to_equations; lia).
  assert (0 <= n mod 10 <= 9) by (Z.div_mod_to_equations; lia).
  rewrite !digit_value_digit by assumption.
  f_equal. Z.div_mod_to_equations. lia.
Qed.

Lemma read_four_digits n :
  0 <= n < 10000 ->
  read_digits 0 (list_ascii_of_string (four_digits n)) = Some n.
Proof.
  intros Hn. unfold four_digits. cbn [list_ascii_of_string read_digits].
  assert (0 <= n / 1000 <= 9) by (Z.div_mod_to_equations; lia).
  assert (0 <= n / 100 mod 10 <= 9) by (Z.div_mod_to_equations; lia).
  assert (0 <= n / 10 mod 10 <= 9) by (Z.div_mod_to_equations; lia).
  assert (0 <= n mod 10 <= 9) by (Z.div_mod_to_equations; lia).
  rewrite !digit_value_digit by assumption.
  f_equal. Z.div_mod_to_equations. lia.
Qed.

(** ** The range checks *)

Lemma days_in_month_bounds y m : 28 <= days_in_month y m <= 31.
Proof.
  unfold days_in_month.
  destruct (m =? 2); [destruct (is_leap y); lia|].
  destruct ((m =? 4) || (m =? 6) || (m =? 9) || (m =? 11)); lia.
Qed.

Lemma check_date_fields_bounds y m d :
  check_date_fields y m d = true ->
  1 <= y <= 9999 /\ 1 <= m <= 12 /\ 1 <= d <= days_in_month y m.
Proof.
  unfold check_date_fields, MINYEAR, MAXYEAR.
  rewrite !andb_true_iff, !Z.leb_le. lia.
Qed.

Lemma check_time_fields_bounds h mi s us :
  check_time_fields h mi s us = true ->
  0 <= h <= 23 /\ 0 <= mi <= 59 /\ 0 <= s <= 59 /\ 0 <= us <= 999999.
Proof.
  unfold check_time_fields.
  rewrite !andb_true_iff, !Z.leb_le. lia.
Qed.

Lemma check_time_fields_hm h mi s us :
  check_time_fields h mi s us = true -> check_time_fields h mi 0 0 = true.
Proof.
  unfold check_time_fields.
  rewrite !andb_true_iff, !Z.leb_le. lia.
Qed.

Lemma Timestamp_ok_date x :
  Timestamp.ok x = true ->
  check_date_fields (Timestamp.year x) (Timestamp.month x) (Timestamp.day x)
  = true /\ 1677 <= Timestamp.year x <= 2262.
Proof.
  unfold Timestamp.ok. rewrite !andb_true_iff, !Z.leb_le. tauto.
Qed.

(** The constructor accepts the date of a Timestamp with the hour and the
    minute of a [datetime.time]. *)
Lemma Datetime_new_ok d t :
  Timestamp.ok d = true -> Time.ok t = true ->
  Datetime.new (Timestamp.year d) (Timestamp.month d) (Timestamp.day d)
    (Time.hour t) (Time.minute t)
  = Ok (Datetime.mk (Timestamp.year d) (Timestamp.month d) (Timestamp.day d)
          (Time.hour t) (Time.minute t) 0 0).
Proof.
  intros Hd Ht. unfold Datetime.new.
  apply Timestamp_ok_date in Hd as [-> _].
  unfold Time.ok in Ht. apply check_time_fields_hm in Ht as ->.
  reflexivity.
Qed.

(** ** Round trips of the wire strings *)

Lemma read_date_isoformat y m d :
  check_date_fields y m d = true ->
  read_date (list_ascii_of_string (Date.isoformat (Date.mk y m d)))
  = Some (Date.mk y m d).
Proof.
  intros Hok.
  destruct (check_date_fields_bounds _ _ _ Hok) as (Hy & Hm & Hd).
  pose proof (days_in_month_bounds y m) as Hdim.
  unfold Date.isoformat. cbn [Date.year Date.month Date.day].
  rewrite zfill4_digits, !zfill2_digits by lia.
  pose proof (read_four_digits y ltac:(lia)) as Ry.
  pose proof (read_two_digits m ltac:(lia)) as Rm.
  pose proof (read_two_digits d ltac:(lia)) as Rd.
  unfold four_digits, two_digits in *.
  cbv [String.append list_ascii_of_string] in *.
  unfold read_date. cbv beta iota. rewrite Ry, Rm, Rd, Hok. reflexivity.
Qed.

Lemma date_fromisoformat_isoformat x :
  check_date_fields (Date.year x) (Date.month x) (Date.day x) = true ->
  date_fromisoformat (Date.isoformat x) = Some x.
Proof.
  destruct x as [y m d]. apply read_date_isoformat.
Qed.

Lemma datetime_fromisoformat_isoformat y m d h mi s :
  check_date_fields y m d = true ->
  check_time_fields h mi s 0 = true ->
  datetime_fromisoformat (Datetime.isoformat (Datetime.mk y m d h mi s 0))
  = Some (Datetime.mk y m d h mi s 0).
Proof.
  intros Hdate Htime.
  destruct (check_date_fields_bounds _ _ _ Hdate) as (Hy & Hm & Hd).
  destruct (check_time_fields_bounds _ _ _ _ Htime) as (Hh & Hmi & Hs & _).
  pose proof (days_in_month_bounds y m) as Hdim.
  pose proof (read_date_isoformat y m d Hdate) as Rdate.
  unfold Date.isoformat in Rdate. cbn [Date.year Date.month Date.day] in Rdate.
  unfold datetime_fromisoformat, Datetime.isoformat.
  cbn [Datetime.year Datetime.month Datetime.day Datetime.hour
       Datetime.minute Datetime.second Datetime.microsecond].
  rewrite zfill4_digits, !zfill2_digits in * by lia.
  pose proof (read_two_digits h ltac:(lia)) as Rh.
  pose proof (read_two_digits mi ltac:(lia)) as Rmi.
  pose proof (read_two_digits s ltac:(lia)) as Rs.
  change (0 =? 0) with true. cbv iota.
  unfold four_digits, two_digits in *.
  cbv [String.append list_ascii_of_string firstn skipn] in *.
  rewrite Rdate. cbv beta iota. rewrite Rh, Rmi, Rs, Htime. reflexivity.
Qed.

(** ** One hour later *)

Lemma days_before_year_succ y :
  days_before_year (y + 1)
  = days_before_year y + (if is_leap y then 366 else 365).
Proof.
  unfold days_before_year, is_leap.
  replace (y + 1 - 1) with y by lia.
  destruct (Z.eqb_spec (y mod 4) 0), (Z.eqb_spec (y mod 100) 0),
    (Z.eqb_spec (y mod 400) 0); cbn [negb andb orb];
    Z.div_mod_to_equations; lia.
Qed.

Lemma month_cases m :
  1 <= m <= 12 ->
  m = 1 \/ m = 2 \/ m = 3 \/ m = 4 \/ m = 5 \/ m = 6 \/ m = 7 \/ m = 8
  \/ m = 9 \/ m = 10 \/ m = 11 \/ m = 12.
Proof. lia. Qed.

(** [next_day] is the day whose ordinal is one more. *)
Lemma ymd2ord_next_day y m d :
  check_date_fields y m d = true ->
  let '(y', m', d') := Datetime.next_day y m d in
  ymd2ord y' m' d' = ymd2ord y m d + 1.
Proof.
  intros Hok.
  destruct (check_date_fields_bounds _ _ _ Hok) as (Hy & Hm & Hd).
  unfold Datetime.next_day.
  destruct (Z.ltb_spec d (days_in_month y m)) as [Hlt | Hge].
  - unfold ymd2ord. lia.
  - assert (d = days_in_month y m) as -> by lia.
    destruct (Z.ltb_spec m 12) as [Hm12 | Hm12].
    + unfold ymd2ord, days_before_month, days_in_month.
      destruct (month_cases m Hm) as
        [->|[->|[->|[->|[->|[->|[->|[->|[->|[->|[->| ->]]]]]]]]]]];
        try lia; destruct (is_leap y); cbn; repeat eval_months; cbn; lia.
    + assert (m = 12) as -> by lia.
      unfold ymd2ord, days_before_month, days_in_month.
      rewrite days_before_year_succ.
      destruct (is_leap y), (is_leap (y + 1)); cbn; lia.
Qed.

Lemma next_day_valid y m d :
  check_date_fields y m d = true -> y < MAXYEAR ->
  let '(y', m', d') := Datetime.next_day y m d in
  check_date_fields y' m' d' = true.
Proof.
  intros Hok Hmax.
  destruct (check_date_fields_bounds _ _ _ Hok) as (Hy & Hm & Hd).
  unfold Datetime.next_day, MAXYEAR in *.
  destruct (Z.ltb_spec d (days_in_month y m)) as [Hlt | Hge].
  - unfold check_date_fields, MINYEAR, MAXYEAR.
    rewrite !andb_true_iff, !Z.leb_le. lia.
  - destruct (Z.ltb_spec m 12) as [Hm12 | Hm12].
    + pose proof (days_in_month_bounds y (m + 1)).
      unfold check_date_fields, MINYEAR, MAXYEAR.
      rewrite !andb_true_iff, !Z.leb_le. lia.
    + pose proof (days_in_month_bounds (y + 1) 1).
      unfold check_date_fields, MINYEAR, MAXYEAR.
      rewrite !andb_true_iff, !Z.leb_le. lia.
Qed.

(** Adding the hour succeeds below the last year, keeps the date fields
    valid and moves the instant by 3600 seconds; it keeps the calendar day
    exactly when the hour is not 23. *)
Lemma add_one_hour_spec x :
  check_date_fields (Datetime.year x) (Datetime.month x) (Datetime.day x) = true ->
  0 <= Datetime.hour x <= 23 ->
  Datetime.year x < MAXYEAR ->
  exists x',
    Datetime.add_one_hour x = Ok x'
    /\ Datetime.to_seconds x' = Datetime.to_seconds x + 3600
    /\ check_date_fields (Datetime.year x') (Datetime.month x') (Datetime.day x') = true
    /\ 0 <= Datetime.hour x' <= 23
    /\ Datetime.minute x' = Datetime.minute x
    /\ Datetime.second x' = Datetime.second x
    /\ Datetime.microsecond x' = Datetime.microsecond x
    /\ (Datetime.hour x < 23 ->
        Datetime.date x' = Datetime.date x /\ Datetime.hour x' = Datetime.hour x + 1)
    /\ (Datetime.hour x = 23 ->
        (Datetime.year x', Datetime.month x', Datetime.day x')
        = Datetime.next_day (Datetime.year x) (Datetime.month x) (Datetime.day x)
        /\ Datetime.hour x' = 0).
Proof.
  destruct x as [y m d h mi s us]. cbn [Datetime.year Datetime.month
    Datetime.day Datetime.hour Datetime.minute Datetime.second
    Datetime.microsecond]. intros Hok Hh Hmax.
  unfold Datetime.add_one_hour. cbn [Datetime.year Datetime.month
    Datetime.day Datetime.hour Datetime.minute Datetime.second
    Datetime.microsecond].
  destruct (Z.ltb_spec h 23) as [Hlt | Hge].
  - eexists. split; [reflexivity|].
    unfold Datetime.to_seconds, Datetime.date. cbn. repeat split; try lia; auto.
  - pose proof (ymd2ord_next_day y m d Hok) as Hord.
    pose proof (next_day_valid y m d Hok Hmax) as Hval.
    assert (Hyear : fst (fst (Datetime.next_day y m d)) <= y + 1).
    { unfold Datetime.next_day.
      destruct (d <? days_in_month y m); [cbn; lia|].
      destruct (m <? 12); cbn; lia. }
    destruct (Datetime.next_day y m d) as [[y' m'] d'] eqn:Hnext.
    cbn [fst] in Hyear.
    destruct (Z.leb_spec y' MAXYEAR) as [_ | Hbad]; [|unfold MAXYEAR in *; lia].
    eexists. split; [reflexivity|].
    unfold Datetime.to_seconds, Datetime.date. cbn.
    repeat split; try lia; auto.
Qed.

(** ** Rows of a DataFrame *)

Lemma apply_rows_Ok {A B : Type} (f : A -> result B) df out :
  apply_rows f df = Ok out -> Forall2 (fun r y => f r = Ok y) df out.
Proof.
  revert out. induction df as [|r rest IH]; intros out; cbn.
  - intros [= <-]. constructor.
  - destruct (f r) as [y|e] eqn:Hr; cbn; [|discriminate].
    destruct (apply_rows f rest) as [ys|e]; cbn; [|discriminate].
    intros [= <-]. constructor; auto.
Qed.

Lemma apply_rows_Raise {A B : Type} (f : A -> result B) df e :
  apply_rows f df = Raise e -> exists r, In r df /\ f r = Raise e.
Proof.
  induction df as [|r rest IH]; cbn; [discriminate|].
  destruct (f r) as [y|e'] eqn:Hr; cbn.
  - destruct (apply_rows f rest) as [ys|e'']; cbn; [discriminate|].
    intros [= ->]. destruct IH as (r' & Hin & Hr'); eauto.
  - intros [= ->]. eauto.
Qed.


(** ** Reading a resolved side *)

Lemma timed_side_dateTime x tz :
  timed_side x tz !! "dateTime" = Some (JStr (Datetime.isoformat x)).
Proof. unfold timed_side. apply lookup_insert_eq. Qed.

Lemma timed_side_timeZone x tz :
  timed_side x tz !! "timeZone" = Some (of_cell tz).
Proof.
  unfold timed_side. rewrite lookup_insert_ne by discriminate.
  apply lookup_singleton_eq.
Qed.

Lemma timed_side_date x tz : timed_side x tz !! "date" = None.
Proof.
  unfold timed_side. rewrite lookup_insert_ne by discriminate.
  apply lookup_singleton_ne. discriminate.
Qed.

Lemma wire_datetime_timed_side x tz :
  check_date_fields (Datetime.year x) (Datetime.month x) (Datetime.day x) = true ->
  check_time_fields (Datetime.hour x) (Datetime.minute x) (Datetime.second x) 0 = true ->
  Datetime.microsecond x = 0 ->
  wire_datetime (timed_side x tz) = Some x.
Proof.
  destruct x as [y m d h mi s us]. cbn. intros Hd Ht ->.
  unfold wire_datetime. rewrite timed_side_dateTime.
  apply datetime_fromisoformat_isoformat; assumption.
Qed.

Lemma wire_datetime_combine d t tz :
  Timestamp.ok d = true -> Time.ok t = true ->
  wire_datetime (timed_side (combine d t) tz) = Some (combine d t).
Proof.
  intros Hd Ht. apply wire_datetime_timed_side; cbn.
  - apply Timestamp_ok_date in Hd. tauto.
  - unfold Time.ok in Ht. eapply check_time_fields_hm, Ht.
  - reflexivity.
Qed.

(** The cells of a well-formed row are well formed. *)
Lemma row_ok_cells row :
  row_ok row = true ->
  cell_ok Timestamp.ok (Start_Date row) = true
  /\ cell_ok Time.ok (Start_Time row) = true
  /\ cell_ok Timestamp.ok (End_Date row) = true
  /\ cell_ok Time.ok (End_Time row) = true.
Proof. unfold row_ok. rewrite !andb_true_iff. tauto. Qed.

(** What [format_date] returns on a timed row, in the three cases of its
    end. *)
Lemma format_date_timed row d t :
  Timestamp.ok d = true -> Time.ok t = true ->
  Start_Date row = Some d -> Start_Time row = Some t ->
  format_date row =
  (let! end_datetime :=
     match End_Time row with
     | None => Datetime.add_one_hour (combine d t)
     | Some t' =>
         match End_Date row with
         | None =>
             Datetime.new (Timestamp.year d) (Timestamp.month d)
               (Timestamp.day d) (Time.hour t') (Time.minute t')
         | Some d' =>
             Datetime.new (Timestamp.year d') (Timestamp.month d')
               (Timestamp.day d') (Time.hour t') (Time.minute t')
         end
     end in
   Ok (timed_side (combine d t) (Start_Time_Zone row),
       timed_side end_datetime (End_Time_Zone row))).
Proof.
  intros Hd Ht HSD HST. unfold format_date. rewrite HSD, HST.
  rewrite (Datetime_new_ok d t Hd Ht). reflexivity.
Qed.

(** ** The claims about [format_date] *)

(** C1. A row whose Start Date cell is blank makes [format_date] raise the
    missing-Start-Date exception, whatever its other cells hold. *)
Theorem format_date_blank_start_date (row : Row) :
  Start_Date row = None ->
  format_date row = Raise MissingRequiredField.
Proof.
  intros H. unfold format_date. rewrite H. reflexivity.
Qed.

Lemma format_date_blank_start_date_witness :
  format_date (all_blank_but (Some "Work") (Some (Time.mk 9 0 0 0)))
  = Raise MissingRequiredField.
Proof.
  apply (format_date_blank_start_date
           (all_blank_but (Some "Work") (Some (Time.mk 9 0 0 0)))).
  reflexivity.
Defined.

(** C2. With a Start Date and a blank Start Time the result is an all-day
    pair: the start holds only the key ["date"] with the day of Start Date,
    the end holds only the key ["date"] with the day of End Date, or of Start
    Date when End Date is blank; neither side has a ["dateTime"] or a
    ["timeZone"]. *)
Theorem format_date_all_day (row : Row) (d : Timestamp.t) :
  Start_Date row = Some d ->
  Start_Time row = None ->
  exists s e : gmap string jvalue,
    format_date row = Ok (s, e)
    /\ s = {[ "date" := JStr (Date.isoformat (Timestamp.date d)) ]}
    /\ e = {[ "date" := JStr (Date.isoformat
                (Timestamp.date (default d (End_Date row)))) ]}
    /\ dom s = {[ "date" ]} /\ dom e = {[ "date" ]}
    /\ s !! "dateTime" = None /\ s !! "timeZone" = None
    /\ e !! "dateTime" = None /\ e !! "timeZone" = None.
Proof.
  intros HSD HST. unfold format_date. rewrite HSD, HST.
  eexists _, _. split; [reflexivity|].
  split; [reflexivity|].
  split; [destruct (End_Date row); reflexivity|].
  rewrite !dom_singleton_L.
  repeat split; apply lookup_singleton_ne; discriminate.
Qed.

Lemma format_date_all_day_witness :
  exists s e : gmap string jvalue,
    format_date three_days = Ok (s, e)
    /\ s = {[ "date" := JStr "2024-03-01" ]}
    /\ e = {[ "date" := JStr "2024-03-03" ]}
    /\ dom s = {[ "date" ]} /\ dom e = {[ "date" ]}
    /\ s !! "dateTime" = None /\ s !! "timeZone" = None
    /\ e !! "dateTime" = None /\ e !! "timeZone" = None.
Proof.
  apply (format_date_all_day three_days (Timestamp.mk 2024 3 1 0 0 0 0 0));
    reflexivity.
Defined.

Lemma check_time_fields_intro h mi s us :
  0 <= h <= 23 -> 0 <= mi <= 59 -> 0 <= s <= 59 -> 0 <= us <= 999999 ->
  check_time_fields h mi s us = true.
Proof.
  intros. unfold check_time_fields.
  rewrite !andb_true_iff, !Z.leb_le. lia.
Qed.

(** C3, as stated, fails: a timed row that starts at 23:30 with a blank End
    Time ends at 00:30 of the next day, not on the day of Start Date. *)
Lemma one_hour_default_leaves_start_day :
  row_ok late_evening = true
  /\ Start_Time late_evening = Some (Time.mk 23 30 0 0)
  /\ End_Time late_evening = None
  /\ ~ ends_on_start_day late_evening.
Proof.
  repeat split.
  intros (d & s & e & edt & Hd & Hf & Hw & Hdate).
  assert (Hres : format_date late_evening
                 = Ok (timed_side (Datetime.mk 2024 3 1 23 30 0 0) (Some "Europe/Paris"),
                       timed_side (Datetime.mk 2024 3 2 0 30 0 0) (Some "Europe/Paris")))
    by reflexivity.
  rewrite Hres in Hf. injection Hf as <- <-.
  rewrite wire_datetime_timed_side in Hw by reflexivity.
  injection Hw as <-. injection Hd as <-.
  discriminate Hdate.
Qed.

(** C3, amended. With a Start Time and a blank End Time the end is the start
    plus 3600 seconds; it falls on the day of Start Date when the hour of
    Start Time is below 23 and on the following day when it is 23; the End
    Date cell has no influence on the result. *)
Theorem format_date_one_hour_default (row : Row) (d : Timestamp.t) (t : Time.t) :
  row_ok row = true ->
  Start_Date row = Some d ->
  Start_Time row = Some t ->
  End_Time row = None ->
  exists (s e : gmap string jvalue) (sdt edt : Datetime.t),
    format_date row = Ok (s, e)
    /\ wire_datetime s = Some sdt
    /\ wire_datetime e = Some edt
    /\ sdt = combine d t
    /\ Datetime.to_seconds edt = Datetime.to_seconds sdt + 3600
    /\ (Time.hour t < 23 -> Datetime.date edt = Timestamp.date d)
    /\ (Time.hour t = 23 ->
        (Datetime.year edt, Datetime.month edt, Datetime.day edt)
        = Datetime.next_day (Timestamp.year d) (Timestamp.month d)
            (Timestamp.day d))
    /\ forall c, format_date (set_End_Date c row) = format_date row.
Proof.
  intros Hok HSD HST HET.
  destruct (row_ok_cells row Hok) as (Hd & Ht & _ & _).
  rewrite HSD in Hd. rewrite HST in Ht. cbn [cell_ok] in Hd, Ht.
  destruct (Timestamp_ok_date d Hd) as [Hdate Hyear].
  destruct (check_time_fields_bounds _ _ _ _ Ht) as (Hh & Hmi & _ & _).
  destruct (add_one_hour_spec (combine d t)) as
    (x' & Hadd & Hsec & Hdate' & Hh' & Hmi' & Hs' & Hus' & Hsame & Hnext);
    [exact Hdate | exact Hh | cbn; unfold MAXYEAR; lia |].
  cbn [combine Datetime.year Datetime.month Datetime.day Datetime.hour
       Datetime.minute Datetime.second Datetime.microsecond] in *.
  exists (timed_side (combine d t) (Start_Time_Zone row)),
    (timed_side x' (End_Time_Zone row)), (combine d t), x'.
  split.
  { rewrite (format_date_timed row d t Hd Ht HSD HST), HET.
    rewrite Hadd. reflexivity. }
  split; [apply wire_datetime_combine; assumption|].
  split.
  { apply wire_datetime_timed_side; [exact Hdate' | | exact Hus'].
    rewrite Hmi', Hs'. apply check_time_fields_intro; lia. }
  split; [reflexivity|].
  split; [exact Hsec|].
  split; [intros Hlt; apply Hsame; exact Hlt|].
  split; [intros H23; apply Hnext; exact H23|].
  intros c. unfold format_date.
  cbn [set_End_Date Start_Date Start_Time End_Time End_Date Start_Time_Zone
       End_Time_Zone].
  rewrite HSD, HST, HET. reflexivity.
Qed.

Lemma format_date_one_hour_default_witness :
  exists (s e : gmap string jvalue) (sdt edt : Datetime.t),
    format_date late_evening = Ok (s, e)
    /\ wire_datetime s = Some sdt
    /\ wire_datetime e = Some edt
    /\ sdt = Datetime.mk 2024 3 1 23 30 0 0
    /\ Datetime.to_seconds edt = Datetime.to_seconds sdt + 3600
    /\ (23 < 23 -> Datetime.date edt = Date.mk 2024 3 1)
    /\ (23 = 23 ->
        (Datetime.year edt, Datetime.month edt, Datetime.day edt) = (2024, 3, 2))
    /\ forall c, format_date (set_End_Date c late_evening)
                 = format_date late_evening.
Proof.
  apply (format_date_one_hour_default late_evening
           (Timestamp.mk 2024 3 1 0 0 0 0 0) (Time.mk 23 30 0 0));
    reflexivity.
Defined.

(** C4. With Start Time and End Time present and a blank End Date, the end
    is the day of Start Date with the hour and the minute of End Time,
    whether or not that instant comes before the start. *)
Theorem format_date_end_on_start_day (row : Row) (d : Timestamp.t)
    (t t' : Time.t) :
  row_ok row = true ->
  Start_Date row = Some d ->
  Start_Time row = Some t ->
  End_Time row = Some t' ->
  End_Date row = None ->
  exists s e : gmap string jvalue,
    format_date row = Ok (s, e)
    /\ s = timed_side (combine d t) (Start_Time_Zone row)
    /\ e = timed_side (combine d t') (End_Time_Zone row)
    /\ wire_datetime s = Some (combine d t)
    /\ wire_datetime e = Some (combine d t')
    /\ Datetime.date (combine d t') = Timestamp.date d.
Proof.
  intros Hok HSD HST HET HED.
  destruct (row_ok_cells row Hok) as (Hd & Ht & _ & Ht').
  rewrite HSD in Hd. rewrite HST in Ht. rewrite HET in Ht'.
  cbn [cell_ok] in Hd, Ht, Ht'.
  eexists _, _. split.
  { rewrite (format_date_timed row d t Hd Ht HSD HST), HET, HED.
    rewrite (Datetime_new_ok d t' Hd Ht'). reflexivity. }
  repeat split; try reflexivity; apply wire_datetime_combine; assumption.
Qed.

Lemma format_date_end_on_start_day_witness :
  exists s e : gmap string jvalue,
    format_date past_midnight = Ok (s, e)
    /\ s = timed_side (Datetime.mk 2024 3 1 23 30 0 0) (Some "Europe/Paris")
    /\ e = timed_side (Datetime.mk 2024 3 1 0 30 0 0) (Some "Europe/Paris")
    /\ wire_datetime s = Some (Datetime.mk 2024 3 1 23 30 0 0)
    /\ wire_datetime e = Some (Datetime.mk 2024 3 1 0 30 0 0)
    /\ Date.mk 2024 3 1 = Date.mk 2024 3 1.
Proof.
  apply (format_date_end_on_start_day past_midnight
           (Timestamp.mk 2024 3 1 0 0 0 0 0) (Time.mk 23 30 0 0)
           (Time.mk 0 30 0 0));
    reflexivity.
Defined.

(** The end of [past_midnight] is 23 hours before its start. *)
Example past_midnight_end_before_start :
  Datetime.to_seconds (Datetime.mk 2024 3 1 0 30 0 0)
  = Datetime.to_seconds (Datetime.mk 2024 3 1 23 30 0 0) - 23 * 3600.
Proof. reflexivity. Qed.

(** C6. On a fully specified timed row, the ["dateTime"] of the start reads
    back as the day of Start Date with the hour and minute of Start Time, and
    that of the end as the day of End Date with the hour and minute of End
    Time; the two time zone strings are attached unchanged and the instants
    do not depend on them. *)
Theorem format_date_wall_clock (row : Row) (d d' : Timestamp.t)
    (t t' : Time.t) (z z' : string) :
  row_ok row = true ->
  Start_Date row = Some d ->
  Start_Time row = Some t ->
  End_Date row = Some d' ->
  End_Time row = Some t' ->
  Start_Time_Zone row = Some z ->
  End_Time_Zone row = Some z' ->
  exists s e : gmap string jvalue,
    format_date row = Ok (s, e)
    /\ s !! "dateTime" = Some (JStr (Datetime.isoformat (combine d t)))
    /\ e !! "dateTime" = Some (JStr (Datetime.isoformat (combine d' t')))
    /\ wire_datetime s = Some (combine d t)
    /\ wire_datetime e = Some (combine d' t')
    /\ s !! "timeZone" = Some (JStr z)
    /\ e !! "timeZone" = Some (JStr z').
Proof.
  intros Hok HSD HST HED HET HSZ HEZ.
  destruct (row_ok_cells row Hok) as (Hd & Ht & Hd' & Ht').
  rewrite HSD in Hd. rewrite HST in Ht. rewrite HED in Hd'. rewrite HET in Ht'.
  cbn [cell_ok] in Hd, Ht, Hd', Ht'.
  exists (timed_side (combine d t) (Some z)),
    (timed_side (combine d' t') (Some z')).
  split.
  { rewrite (format_date_timed row d t Hd Ht HSD HST), HET, HED, HSZ, HEZ.
    rewrite (Datetime_new_ok d' t' Hd' Ht'). reflexivity. }
  rewrite !timed_side_dateTime, !timed_side_timeZone.
  repeat split; try reflexivity; apply wire_datetime_combine; assumption.
Qed.

Lemma format_date_wall_clock_witness :
  exists s e : gmap string jvalue,
    format_date conference = Ok (s, e)
    /\ s !! "dateTime" = Some (JStr "2024-03-01T09:05:00")
    /\ e !! "dateTime" = Some (JStr "2024-03-02T17:45:00")
    /\ wire_datetime s = Some (Datetime.mk 2024 3 1 9 5 0 0)
    /\ wire_datetime e = Some (Datetime.mk 2024 3 2 17 45 0 0)
    /\ s !! "timeZone" = Some (JStr "America/New_York")
    /\ e !! "timeZone" = Some (JStr "Asia/Tokyo").
Proof.
  apply (format_date_wall_clock conference
           (Timestamp.mk 2024 3 1 0 0 0 0 0) (Timestamp.mk 2024 3 2 0 0 0 0 0)
           (Time.mk 9 5 0 0) (Time.mk 17 45 0 0)
           "America/New_York" "Asia/Tokyo");
    reflexivity.
Defined.

(** C10. [format_date] reads only the hour and the minute of the Start Time
    and End Time cells: whatever seconds and microseconds they carry, the
    result, or the exception, is the same. *)
Theorem format_date_ignores_seconds (row : Row) (s1 us1 s2 us2 : Z) :
  format_date (with_seconds s1 us1 s2 us2 row) = format_date row.
Proof.
  destruct row as [su de sd st ed et sz ez cn].
  unfold format_date, with_seconds.
  cbn [Start_Date Start_Time End_Date End_Time Start_Time_Zone End_Time_Zone
       summary description Calendar_Name].
  destruct sd as [d|]; [|reflexivity].
  destruct st as [t|]; [|reflexivity].
  destruct et as [t'|]; reflexivity.
Qed.

(** The seconds of both time cells are absent from the wire strings. *)
Example seconds_are_dropped :
  format_date (with_seconds 59 999999 30 1 conference) = format_date conference
  /\ (exists s e, format_date (with_seconds 59 999999 30 1 conference) = Ok (s, e)
      /\ s !! "dateTime" = Some (JStr "2024-03-01T09:05:00")
      /\ e !! "dateTime" = Some (JStr "2024-03-02T17:45:00")).
Proof.
  split; [reflexivity|].
  eexists _, _. split; [reflexivity|]. split; reflexivity.
Qed.

(** ** The DataFrame returned by [df_cal_format] *)

Lemma apply_rows_map {A B C : Type} (g : A -> B) (f : B -> result C) df :
  apply_rows f (map g df) = apply_rows (fun r => f (g r)) df.
Proof.
  induction df as [|r rest IH]; cbn; [reflexivity|].
  rewrite IH. reflexivity.
Qed.

Lemma df_cal_format_Ok {R : Type} (service : Service R) df out :
  df_cal_format df service = Ok out ->
  exists tz cals,
    default_timezone service = Ok tz
    /\ linked_calendars service true = Ok cals
    /\ Forall2 (formatted tz cals) df out.
Proof.
  unfold df_cal_format.
  destruct (default_timezone service) as [tz|e]; cbn [bind]; [|discriminate].
  destruct (linked_calendars service true) as [cals|e]; cbn [bind];
    [|discriminate].
  rewrite apply_rows_map. intros Hrows.
  exists tz, cals. split; [reflexivity|]. split; [reflexivity|].
  apply apply_rows_Ok in Hrows.
  induction Hrows as [|row frow df' out' Hrow _ IH]; constructor; [|exact IH].
  destruct (format_date (fill_defaults tz row)) as [[s e]|err] eqn:Hfd;
    cbn in Hrow; [|discriminate].
  injection Hrow as <-. unfold formatted. cbn. auto.
Qed.



(** ** The claims about the calendar directory and the defaults *)

(** C5. In the DataFrame returned by [df_cal_format], every row whose
    Calendar Name is ["Primary"], or blank, has the id ["primary"], whatever
    calendars the service lists, one named ["Primary"] included. *)
Theorem Primary_is_primary {R : Type} (service : Service R)
    (df : list Row) (out : list FormattedRow) :
  df_cal_format df service = Ok out ->
  Forall2 (fun row frow =>
             Calendar_Name row = Some "Primary" \/ Calendar_Name row = None ->
             id frow = Some "primary")
    df out.
Proof.
  intros Hout.
  destruct (df_cal_format_Ok service df out Hout) as (tz & cals & _ & _ & Hall).
  eapply Forall2_impl; [exact Hall|].
  intros row frow (_ & Hid & _) Hname. rewrite Hid.
  assert (Calendar_Name (fill_defaults tz row) = Some "Primary") as ->.
  { cbn. destruct Hname as [-> | ->]; reflexivity. }
  cbn [map_calendars]. apply lookup_insert_eq.
Qed.

Lemma Primary_is_primary_witness :
  Forall2 (fun row frow =>
             Calendar_Name row = Some "Primary" \/ Calendar_Name row = None ->
             id frow = Some "primary")
    [day_row (Some "Primary"); day_row None; day_row (Some "Work")]
    [day_frow "Primary" (Some "primary"); day_frow "Primary" (Some "primary");
     day_frow "Work" (Some "work@group.calendar.google.com")].
Proof.
  apply (Primary_is_primary two_primaries). vm_compute. reflexivity.
Defined.

(** ** The wire shapes *)

Lemma shapes_disjoint side : ~ (all_day_shape side /\ timed_shape side).
Proof.
  intros [(str & -> & _) (iso & tz & Heq & _)].
  apply (f_equal (fun m => m !! "dateTime")) in Heq.
  rewrite lookup_insert_eq, lookup_singleton_ne in Heq by discriminate.
  discriminate.
Qed.

Lemma all_day_shape_Timestamp d :
  Timestamp.ok d = true ->
  all_day_shape {[ "date" := JStr (Date.isoformat (Timestamp.date d)) ]}.
Proof.
  intros Hd. eexists. split; [reflexivity|].
  rewrite date_fromisoformat_isoformat; [eauto|].
  apply Timestamp_ok_date in Hd. tauto.
Qed.

Lemma timed_shape_timed_side x tz :
  check_date_fields (Datetime.year x) (Datetime.month x) (Datetime.day x) = true ->
  check_time_fields (Datetime.hour x) (Datetime.minute x) (Datetime.second x) 0 = true ->
  Datetime.microsecond x = 0 ->
  timed_shape (timed_side x (Some tz)).
Proof.
  destruct x as [y m d h mi s us]. cbn. intros Hd Ht ->.
  eexists _, tz. split; [reflexivity|].
  rewrite datetime_fromisoformat_isoformat by assumption. eauto.
Qed.

Lemma timed_shape_combine d t tz :
  Timestamp.ok d = true -> Time.ok t = true ->
  timed_shape (timed_side (combine d t) (Some tz)).
Proof.
  intros Hd Ht. apply timed_shape_timed_side; cbn.
  - apply Timestamp_ok_date in Hd. tauto.
  - unfold Time.ok in Ht. eapply check_time_fields_hm, Ht.
  - reflexivity.
Qed.

Lemma row_ok_fill_defaults tz row :
  row_ok (fill_defaults tz row) = row_ok row.
Proof. reflexivity. Qed.

Lemma fillna_default {A : Type} (v : A) (c : option A) :
  fillna v c = Some (default v c).
Proof. destruct c; reflexivity. Qed.

(** C7. Whatever [format_date] returns on a row with its defaults filled is
    one of two shapes, the same for the start and the end, and no side has
    both.  A blank Start Time gives, on both sides, the single key ["date"]
    with the [YYYY-MM-DD] string of the day of Start Date, and of End Date
    (or Start Date) for the end.  A Start Time gives, on both sides, the two
    keys ["dateTime"] and ["timeZone"]: the [YYYY-MM-DDTHH:MM:SS] string of
    the start instant, and of the end instant (one hour later, or the End
    Time on the day of End Date or Start Date), each with the time zone
    string of its side. *)
Theorem format_date_wire_shapes (tz : string) (row : Row)
    (s e : gmap string jvalue) :
  row_ok row = true ->
  format_date (fill_defaults tz row) = Ok (s, e) ->
  ((all_day_shape s /\ all_day_shape e) \/ (timed_shape s /\ timed_shape e))
  /\ ~ (all_day_shape s /\ timed_shape s)
  /\ ~ (all_day_shape e /\ timed_shape e)
  /\ (Start_Time row = None ->
      all_day_shape s /\ all_day_shape e
      /\ exists d,
           Start_Date row = Some d
           /\ s = {[ "date" := JStr (Date.isoformat (Timestamp.date d)) ]}
           /\ e = {[ "date" := JStr (Date.isoformat
                      (Timestamp.date (default d (End_Date row)))) ]})
  /\ (forall t,
        Start_Time row = Some t ->
        timed_shape s /\ timed_shape e
        /\ exists d x',
             Start_Date row = Some d
             /\ s = <[ "dateTime" := JStr (Datetime.isoformat (combine d t)) ]>
                     {[ "timeZone" := JStr (default tz (Start_Time_Zone row)) ]}
             /\ e = <[ "dateTime" := JStr (Datetime.isoformat x') ]>
                     {[ "timeZone" := JStr (default tz (End_Time_Zone row)) ]}
             /\ match End_Time row with
                | None => Datetime.add_one_hour (combine d t) = Ok x'
                | Some t' => x' = combine (default d (End_Date row)) t'
                end).
Proof.
  intros Hok Hfd.
  destruct (row_ok_cells row Hok) as (Hd & Ht & Hd' & Ht').
  destruct (Start_Date row) as [d|] eqn:HSD;
    [|unfold format_date in Hfd; cbn [fill_defaults Start_Date] in Hfd;
      rewrite HSD in Hfd; discriminate].
  cbn [cell_ok] in Hd.
  destruct (Start_Time row) as [t|] eqn:HST.
  - cbn [cell_ok] in Ht.
    rewrite (format_date_timed (fill_defaults tz row) d t Hd Ht HSD HST) in Hfd.
    cbn [fill_defaults End_Time End_Date Start_Time_Zone End_Time_Zone] in Hfd.
    rewrite !fillna_default in Hfd.
    destruct (Timestamp_ok_date d Hd) as [Hdate Hyear].
    destruct (check_time_fields_bounds _ _ _ _ Ht) as (Hh & Hmi & _ & _).
    assert (Hmain :
      timed_shape s /\ timed_shape e
      /\ exists d0 x',
           Some d = Some d0
           /\ s = <[ "dateTime" := JStr (Datetime.isoformat (combine d0 t)) ]>
                   {[ "timeZone" := JStr (default tz (Start_Time_Zone row)) ]}
           /\ e = <[ "dateTime" := JStr (Datetime.isoformat x') ]>
                   {[ "timeZone" := JStr (default tz (End_Time_Zone row)) ]}
           /\ match End_Time row with
              | None => Datetime.add_one_hour (combine d0 t) = Ok x'
              | Some t' => x' = combine (default d0 (End_Date row)) t'
              end).
    { destruct (End_Time row) as [t'|] eqn:HET.
      - cbn [cell_ok] in Ht'.
        destruct (End_Date row) as [d'|] eqn:HED.
        + cbn [cell_ok] in Hd'.
          rewrite (Datetime_new_ok d' t' Hd' Ht') in Hfd.
          injection Hfd as <- <-.
          split; [apply timed_shape_combine; assumption|].
          split; [apply timed_shape_combine; assumption|].
          exists d, (combine d' t'). repeat split.
        + rewrite (Datetime_new_ok d t' Hd Ht') in Hfd.
          injection Hfd as <- <-.
          split; [apply timed_shape_combine; assumption|].
          split; [apply timed_shape_combine; assumption|].
          exists d, (combine d t'). repeat split.
      - destruct (add_one_hour_spec (combine d t)) as
          (x' & Hadd & _ & Hdate' & Hh' & Hmi' & Hs' & Hus' & _);
          [exact Hdate | exact Hh | cbn; unfold MAXYEAR; lia |].
        rewrite Hadd in Hfd. injection Hfd as <- <-.
        split; [apply timed_shape_combine; assumption|].
        split.
        { apply timed_shape_timed_side; [exact Hdate' | | exact Hus'].
          rewrite Hmi', Hs'. cbn. apply check_time_fields_intro; lia. }
        exists d, x'. repeat split. exact Hadd. }
    split; [right; split; apply Hmain|].
    split; [apply shapes_disjoint|]. split; [apply shapes_disjoint|].
    split; [intros Hnone; discriminate Hnone|].
    intros t0 [= <-]. exact Hmain.
  - unfold format_date in Hfd.
    cbn [fill_defaults Start_Date Start_Time End_Date] in Hfd.
    rewrite HSD, HST in Hfd. injection Hfd as <- <-.
    assert (Hend : Timestamp.ok (default d (End_Date row)) = true).
    { destruct (End_Date row); [exact Hd' | exact Hd]. }
    assert (Hmain :
      all_day_shape {[ "date" := JStr (Date.isoformat (Timestamp.date d)) ]}
      /\ all_day_shape
           {[ "date" := JStr (Date.isoformat
                (Timestamp.date (default d (End_Date row)))) ]}).
    { split; apply all_day_shape_Timestamp; assumption. }
    assert (Heq :
      match End_Date row with
      | Some e0 => Date.isoformat (Timestamp.date e0)
      | None => Date.isoformat (Timestamp.date d)
      end = Date.isoformat (Timestamp.date (default d (End_Date row)))).
    { destruct (End_Date row); reflexivity. }
    rewrite Heq.
    split; [left; exact Hmain|].
    split; [apply shapes_disjoint|]. split; [apply shapes_disjoint|].
    split; [|intros t0 Hsome; discriminate Hsome].
    intros _. split; [apply Hmain|]. split; [apply Hmain|].
    exists d. repeat split.
Qed.

Lemma format_date_wire_shapes_witness :
  ((all_day_shape conference_start /\ all_day_shape conference_end)
   \/ (timed_shape conference_start /\ timed_shape conference_end))
  /\ ~ (all_day_shape conference_start /\ timed_shape conference_start)
  /\ ~ (all_day_shape conference_end /\ timed_shape conference_end)
  /\ (Start_Time conference = None ->
      all_day_shape conference_start /\ all_day_shape conference_end
      /\ exists d,
           Start_Date conference = Some d
           /\ conference_start
              = {[ "date" := JStr (Date.isoformat (Timestamp.date d)) ]}
           /\ conference_end
              = {[ "date" := JStr (Date.isoformat
                     (Timestamp.date (default d (End_Date conference)))) ]})
  /\ (forall t,
        Start_Time conference = Some t ->
        timed_shape conference_start /\ timed_shape conference_end
        /\ exists d x',
             Start_Date conference = Some d
             /\ conference_start
                = <[ "dateTime" := JStr (Datetime.isoformat (combine d t)) ]>
                    {[ "timeZone" := JStr (default "Europe/Paris"
                                             (Start_Time_Zone conference)) ]}
             /\ conference_end
                = <[ "dateTime" := JStr (Datetime.isoformat x') ]>
                    {[ "timeZone" := JStr (default "Europe/Paris"
                                             (End_Time_Zone conference)) ]}
             /\ match End_Time conference with
                | None => Datetime.add_one_hour (combine d t) = Ok x'
                | Some t' => x' = combine (default d (End_Date conference)) t'
                end).
Proof.
  apply (format_date_wire_shapes "Europe/Paris" conference
           conference_start conference_end); reflexivity.
Defined.

(** The two shapes on the wire: an all-day row and a timed row. *)
Example wire_shapes_of_two_rows :
  format_date (fill_defaults "Europe/Paris" three_days)
  = Ok ({[ "date" := JStr "2024-03-01" ]}, {[ "date" := JStr "2024-03-03" ]})
  /\ format_date (fill_defaults "Europe/Paris" late_evening)
     = Ok (<[ "dateTime" := JStr "2024-03-01T23:30:00" ]>
             {[ "timeZone" := JStr "Europe/Paris" ]},
           <[ "dateTime" := JStr "2024-03-02T00:30:00" ]>
             {[ "timeZone" := JStr "Europe/Paris" ]}).
Proof. split; vm_compute; reflexivity. Qed.

(** ** The defaults *)




(** ** Calendar names that the directory does not have *)



(** The lookup is exact: ["work"] is not ["Work"], a calendar that can only
    be read is not in the directory, and the run stops at the submission of
    the first row, with the service's error. *)
Example unknown_calendar_run :
  df_cal_format [day_row (Some "work"); day_row (Some "Holidays")] two_primaries
  = Ok [day_frow "work" None; day_frow "Holidays" None]
  /\ xlsx_to_calendar [day_row (Some "work"); day_row (Some "Holidays")]
       two_primaries
     = Raise (HttpError "Missing required parameter calendarId")
  /\ xlsx_to_calendar [day_row (Some "Work"); day_row None] two_primaries
     = Ok [tt; tt].
Proof. repeat split; vm_compute; reflexivity. Qed.

(** * Further properties of the program *)

(** ** [format_date] on well-formed rows *)

(** The result of a timed row: the start is [combine d t] and the end a
    valid instant without microseconds. *)
Lemma format_date_timed_result row d t :
  row_ok row = true ->
  Start_Date row = Some d -> Start_Time row = Some t ->
  exists x',
    format_date row
    = Ok (timed_side (combine d t) (Start_Time_Zone row),
          timed_side x' (End_Time_Zone row))
    /\ check_date_fields (Datetime.year x') (Datetime.month x') (Datetime.day x') = true
    /\ check_time_fields (Datetime.hour x') (Datetime.minute x') (Datetime.second x') 0 = true
    /\ Datetime.microsecond x' = 0.
Proof.
  intros Hok HSD HST.
  destruct (row_ok_cells row Hok) as (Hd & Ht & Hd' & Ht').
  rewrite HSD in Hd. rewrite HST in Ht. cbn [cell_ok] in Hd, Ht.
  rewrite (format_date_timed row d t Hd Ht HSD HST).
  destruct (Timestamp_ok_date d Hd) as [Hdate Hyear].
  destruct (check_time_fields_bounds _ _ _ _ Ht) as (Hh & Hmi & _ & _).
  destruct (End_Time row) as [t'|].
  - cbn [cell_ok] in Ht'. unfold Time.ok in Ht'.
    apply check_time_fields_hm in Ht' as Hhm.
    destruct (End_Date row) as [d'|].
    + cbn [cell_ok] in Hd'.
      exists (combine d' t'). rewrite (Datetime_new_ok d' t' Hd' Ht').
      split; [reflexivity|]. cbn.
      apply Timestamp_ok_date in Hd'. tauto.
    + exists (combine d t'). rewrite (Datetime_new_ok d t' Hd Ht').
      split; [reflexivity|]. cbn. tauto.
  - destruct (add_one_hour_spec (combine d t)) as
      (x' & Hadd & _ & Hdate' & Hh' & Hmi' & Hs' & Hus' & _);
      [exact Hdate | exact Hh | cbn; unfold MAXYEAR; lia |].
    exists x'. rewrite Hadd. split; [reflexivity|].
    split; [exact Hdate'|]. split; [|exact Hus'].
    rewrite Hmi', Hs'. cbn. apply check_time_fields_intro; lia.
Qed.

(** On a well-formed row [format_date] returns when Start Date is present
    and raises the missing-Start-Date exception when it is blank. *)
Lemma format_date_well_formed (row : Row) :
  row_ok row = true ->
  match Start_Date row with
  | Some _ => exists s e : gmap string jvalue, format_date row = Ok (s, e)
  | None => format_date row = Raise MissingRequiredField
  end.
Proof.
  intros Hok. destruct (Start_Date row) as [d|] eqn:HSD.
  - destruct (Start_Time row) as [t|] eqn:HST.
    + destruct (format_date_timed_result row d t Hok HSD HST) as (x' & -> & _).
      eauto.
    + unfold format_date. rewrite HSD, HST. eauto.
  - unfold format_date. rewrite HSD. reflexivity.
Qed.

(** X1. On a row whose date and time cells are well formed, [format_date]
    returns a pair exactly when Start Date is present; the only exception it
    raises is the one for a blank Start Date. *)
Theorem format_date_fails_only_without_start_date (row : Row) :
  row_ok row = true ->
  match Start_Date row with
  | Some _ => exists s e : gmap string jvalue, format_date row = Ok (s, e)
  | None => format_date row = Raise MissingRequiredField
  end.
Proof. apply format_date_well_formed. Qed.

Lemma format_date_fails_only_without_start_date_witness :
  exists s e : gmap string jvalue, format_date late_evening = Ok (s, e).
Proof.
  apply (format_date_fails_only_without_start_date late_evening). reflexivity.
Defined.

(** X2. [format_date] reads only the year, the month and the day of the
    Start Date and End Date cells: a time of day carried by a date cell
    changes neither the result nor the exception, and is never taken as the
    start or end time. *)
Theorem format_date_ignores_clock_of_dates (row : Row)
    (t1 t2 : Time.t) (ns1 ns2 : Z) :
  format_date (with_clocks t1 ns1 t2 ns2 row) = format_date row.
Proof.
  destruct row as [su de sd st ed et sz ez cn].
  unfold format_date, with_clocks.
  cbn [Start_Date Start_Time End_Date End_Time Start_Time_Zone End_Time_Zone
       summary description Calendar_Name].
  destruct sd as [d|]; [|reflexivity].
  destruct st as [t|], ed as [d'|], et as [t'|]; reflexivity.
Qed.

(** X3. On a well-formed all-day row the two ["date"] strings read back as
    the day of Start Date and the day of End Date (of Start Date when End
    Date is blank). *)
Theorem format_date_all_day_round_trip (row : Row) (d : Timestamp.t) :
  row_ok row = true ->
  Start_Date row = Some d ->
  Start_Time row = None ->
  exists (s e : gmap string jvalue) (sv ev : string),
    format_date row = Ok (s, e)
    /\ wire_string "date" s = Some sv
    /\ wire_string "date" e = Some ev
    /\ date_fromisoformat sv = Some (Timestamp.date d)
    /\ date_fromisoformat ev
       = Some (Timestamp.date (default d (End_Date row))).
Proof.
  intros Hok HSD HST.
  destruct (row_ok_cells row Hok) as (Hd & _ & Hd' & _).
  rewrite HSD in Hd. cbn [cell_ok] in Hd.
  assert (Hend : Timestamp.ok (default d (End_Date row)) = true).
  { destruct (End_Date row); [exact Hd' | exact Hd]. }
  exists {[ "date" := JStr (Date.isoformat (Timestamp.date d)) ]},
    {[ "date" := JStr (Date.isoformat
                         (Timestamp.date (default d (End_Date row)))) ]},
    (Date.isoformat (Timestamp.date d)),
    (Date.isoformat (Timestamp.date (default d (End_Date row)))).
  split.
  { unfold format_date. rewrite HSD, HST.
    destruct (End_Date row); reflexivity. }
  unfold wire_string. rewrite !lookup_singleton_eq.
  split; [reflexivity|]. split; [reflexivity|].
  split; apply date_fromisoformat_isoformat.
  - apply Timestamp_ok_date in Hd. tauto.
  - apply Timestamp_ok_date in Hend. tauto.
Qed.

Lemma format_date_all_day_round_trip_witness :
  exists (s e : gmap string jvalue) (sv ev : string),
    format_date three_days = Ok (s, e)
    /\ wire_string "date" s = Some sv
    /\ wire_string "date" e = Some ev
    /\ date_fromisoformat sv = Some (Date.mk 2024 3 1)
    /\ date_fromisoformat ev = Some (Date.mk 2024 3 3).
Proof.
  apply (format_date_all_day_round_trip three_days
           (Timestamp.mk 2024 3 1 0 0 0 0 0)); reflexivity.
Defined.

(** X4. A well-formed timed row, once its defaults are filled, resolves,
    and each side carries its own time zone: the cell's when it is present,
    the account's default when it is blank, the start and the end
    independently of each other. *)
Theorem timed_row_time_zones (tz : string) (row : Row)
    (d : Timestamp.t) (t : Time.t) :
  row_ok row = true ->
  Start_Date row = Some d ->
  Start_Time row = Some t ->
  exists s e : gmap string jvalue,
    format_date (fill_defaults tz row) = Ok (s, e)
    /\ wire_string "timeZone" s = Some (default tz (Start_Time_Zone row))
    /\ wire_string "timeZone" e = Some (default tz (End_Time_Zone row))
    /\ wire_datetime s = Some (combine d t).
Proof.
  intros Hok HSD HST.
  destruct (format_date_timed_result (fill_defaults tz row) d t)
    as (x' & Hres & _); [exact Hok | exact HSD | exact HST |].
  eexists _, _. split; [exact Hres|].
  unfold wire_string. rewrite !timed_side_timeZone.
  destruct (row_ok_cells row Hok) as (Hd & Ht & _).
  rewrite HSD in Hd. rewrite HST in Ht. cbn [cell_ok] in Hd, Ht.
  cbn [fill_defaults Start_Time_Zone End_Time_Zone].
  split; [destruct (Start_Time_Zone row); reflexivity|].
  split; [destruct (End_Time_Zone row); reflexivity|].
  apply wire_datetime_combine; assumption.
Qed.

Lemma timed_row_time_zones_witness :
  exists s e : gmap string jvalue,
    format_date (fill_defaults "Europe/Paris" half_filled) = Ok (s, e)
    /\ wire_string "timeZone" s = Some "Europe/Paris"
    /\ wire_string "timeZone" e = Some "Asia/Tokyo"
    /\ wire_datetime s = Some (Datetime.mk 2024 12 31 23 0 0 0).
Proof.
  apply (timed_row_time_zones "Europe/Paris" half_filled
           (Timestamp.mk 2024 12 31 0 0 0 0 0) (Time.mk 23 0 0 0));
    reflexivity.
Defined.

(** X5. Filling the defaults twice is filling them once, even with another
    default time zone the second time: a cell that holds a value is never
    overwritten. *)
Theorem fill_defaults_idempotent (tz tz' : string) (row : Row) :
  fill_defaults tz' (fill_defaults tz row) = fill_defaults tz row.
Proof.
  destruct row as [su de sd st ed et sz ez cn].
  unfold fill_defaults.
  cbn [summary description Start_Date Start_Time End_Date End_Time
       Start_Time_Zone End_Time_Zone Calendar_Name].
  destruct de, sz, ez, cn; reflexivity.
Qed.

(** ** The calendar directory *)

Lemma find_snoc {A : Type} (p : A -> bool) (l : list A) (a : A) :
  List.find p (l ++ [a])
  = match List.find p l with
    | Some x => Some x
    | None => if p a then Some a else None
    end.
Proof.
  induction l as [|x l IH]; cbn; [reflexivity|].
  destruct (p x); [reflexivity | exact IH].
Qed.

Lemma fold_insert_lookup (calendars : list CalendarListEntry)
    (m : gmap string string) (name : string) :
  fold_left (fun m cal => <[ cal_summary cal := cal_id cal ]> m) calendars m
    !! name
  = match last_named name calendars with
    | Some cal => Some (cal_id cal)
    | None => m !! name
    end.
Proof.
  revert m. induction calendars as [|a l IH]; intros m; [reflexivity|].
  cbn [fold_left]. rewrite IH. unfold last_named. cbn [rev].
  rewrite find_snoc.
  destruct (List.find (named name) (rev l)) as [c|]; [reflexivity|].
  unfold named at 1. destruct (String.eqb_spec (cal_summary a) name) as [<- | Hne].
  - apply lookup_insert_eq.
  - apply lookup_insert_ne. exact Hne.
Qed.

Lemma dict_of_calendars_last_wins_gen (calendars : list CalendarListEntry)
    (name : string) :
  dict_of_calendars calendars !! name
  = cal_id <$> last_named name calendars.
Proof.
  unfold dict_of_calendars. rewrite fold_insert_lookup.
  destruct (last_named name calendars); reflexivity.
Qed.

(** X6. In the dictionary built from a list of calendars, a name is a key
    exactly when some calendar has it as summary, and its value is the id of
    the last such calendar of the list. *)
Theorem dict_of_calendars_last_wins (calendars : list CalendarListEntry)
    (name : string) :
  dict_of_calendars calendars !! name
  = cal_id <$> last_named name calendars.
Proof. apply dict_of_calendars_last_wins_gen. Qed.

Lemma editable_roles cal :
  editable cal = true ->
  cal_accessRole cal = "owner" \/ cal_accessRole cal = "writer".
Proof.
  unfold editable, access_roles. intros H.
  apply bool_decide_eq_true_1 in H.
  apply elem_of_union in H as [H | H]; apply elem_of_singleton in H; auto.
Qed.

Lemma last_named_In name calendars cal :
  last_named name calendars = Some cal ->
  In cal calendars /\ cal_summary cal = name.
Proof.
  unfold last_named. intros H. apply find_some in H as [Hin Hp].
  split; [apply in_rev; exact Hin|].
  unfold named in Hp. apply String.eqb_eq. exact Hp.
Qed.

Lemma last_named_None name calendars :
  (forall cal, In cal calendars -> cal_summary cal <> name) ->
  last_named name calendars = None.
Proof.
  intros Hall. unfold last_named.
  destruct (List.find (named name) (rev calendars)) as [c|] eqn:Hf;
    [|reflexivity].
  apply find_some in Hf as [Hin Hp]. apply in_rev in Hin.
  unfold named in Hp. apply String.eqb_eq in Hp.
  destruct (Hall c Hin Hp).
Qed.

(** X7. The directory of editable calendars holds only calendars that the
    user owns or can write to: every entry is the summary and the id of a
    listed calendar with access role ["owner"] or ["writer"], and a name
    borne only by calendars with other roles is not a key. *)
Theorem linked_calendars_editable_only {R : Type} (service : Service R)
    (items : list CalendarListEntry) :
  calendarList_list service = Ok items ->
  exists calendars : gmap string string,
    linked_calendars service true = Ok calendars
    /\ (forall name cal_id',
          calendars !! name = Some cal_id' ->
          exists cal,
            In cal items /\ cal_summary cal = name /\ cal_id cal = cal_id'
            /\ (cal_accessRole cal = "owner" \/ cal_accessRole cal = "writer"))
    /\ (forall name,
          (forall cal, In cal items -> cal_summary cal = name ->
             cal_accessRole cal <> "owner" /\ cal_accessRole cal <> "writer") ->
          calendars !! name = None).
Proof.
  intros Hitems. unfold linked_calendars. rewrite Hitems. cbn [bind].
  eexists. split; [reflexivity|].
  change (fun cal : CalendarListEntry =>
            bool_decide (cal_accessRole cal ∈ access_roles)) with editable.
  split.
  - intros name i Hlook. rewrite dict_of_calendars_last_wins_gen in Hlook.
    destruct (last_named name (List.filter editable items)) as [c|] eqn:Hlast;
      [|discriminate].
    injection Hlook as <-.
    apply last_named_In in Hlast as [Hin Hname].
    apply filter_In in Hin as [Hin Hed].
    exists c. repeat split; auto. apply editable_roles, Hed.
  - intros name Hall. rewrite dict_of_calendars_last_wins_gen.
    rewrite last_named_None; [reflexivity|].
    intros cal Hin Hname. apply filter_In in Hin as [Hin Hed].
    destruct (Hall cal Hin Hname) as [Ho Hw].
    destruct (editable_roles cal Hed); contradiction.
Qed.

Lemma linked_calendars_editable_only_witness :
  exists calendars : gmap string string,
    linked_calendars three_zones true = Ok calendars
    /\ (forall name cal_id',
          calendars !! name = Some cal_id' ->
          exists cal,
            In cal [mkCal "Team" "first@group.calendar.google.com" "owner";
                    mkCal "Team" "second@group.calendar.google.com" "reader";
                    mkCal "Team" "third@group.calendar.google.com" "writer";
                    mkCal "Holidays" "holidays@group.calendar.google.com" "reader"]
            /\ cal_summary cal = name /\ cal_id cal = cal_id'
            /\ (cal_accessRole cal = "owner" \/ cal_accessRole cal = "writer"))
    /\ (forall name,
          (forall cal,
             In cal [mkCal "Team" "first@group.calendar.google.com" "owner";
                     mkCal "Team" "second@group.calendar.google.com" "reader";
                     mkCal "Team" "third@group.calendar.google.com" "writer";
                     mkCal "Holidays" "holidays@group.calendar.google.com" "reader"] ->
             cal_summary cal = name ->
             cal_accessRole cal <> "owner" /\ cal_accessRole cal <> "writer") ->
          calendars !! name = None).
Proof.
  apply (linked_calendars_editable_only three_zones). reflexivity.
Defined.

(** X8. Without the restriction to editable calendars, every listed
    calendar's summary is a key of the directory, whatever its role. *)
Theorem linked_calendars_all {R : Type} (service : Service R)
    (items : list CalendarListEntry) :
  calendarList_list service = Ok items ->
  exists calendars : gmap string string,
    linked_calendars service false = Ok calendars
    /\ forall cal, In cal items -> is_Some (calendars !! cal_summary cal).
Proof.
  intros Hitems. unfold linked_calendars. rewrite Hitems. cbn [bind].
  eexists. split; [reflexivity|].
  intros cal Hin. rewrite dict_of_calendars_last_wins_gen.
  destruct (last_named (cal_summary cal) items) as [c|] eqn:Hlast;
    [cbn; eauto|].
  unfold last_named in Hlast.
  apply in_rev in Hin.
  pose proof (find_none _ _ Hlast cal Hin) as Hp.
  unfold named in Hp. rewrite String.eqb_refl in Hp. discriminate.
Qed.

Lemma linked_calendars_all_witness :
  exists calendars : gmap string string,
    linked_calendars three_zones false = Ok calendars
    /\ forall cal,
         In cal [mkCal "Team" "first@group.calendar.google.com" "owner";
                 mkCal "Team" "second@group.calendar.google.com" "reader";
                 mkCal "Team" "third@group.calendar.google.com" "writer";
                 mkCal "Holidays" "holidays@group.calendar.google.com" "reader"] ->
         is_Some (calendars !! cal_summary cal).
Proof.
  apply (linked_calendars_all three_zones). reflexivity.
Defined.

(** ** The default time zone *)

Lemma default_timezone_find {R : Type} (service : Service R) items :
  settings_list service = Ok items ->
  default_timezone service
  = match List.find is_timezone items with
    | Some s => Ok (setting_value s)
    | None => Raise IndexError
    end.
Proof.
  intros Hitems. unfold default_timezone. rewrite Hitems. cbn [bind].
  change (fun s : Setting => String.eqb (setting_id s) "timezone")
    with is_timezone.
  clear Hitems.
  induction items as [|s rest IH]; [reflexivity|].
  cbn [List.filter List.find]. destruct (is_timezone s); [reflexivity|].
  exact IH.
Qed.

Lemma find_is_timezone_None items :
  (forall s, In s items -> setting_id s <> "timezone") ->
  List.find is_timezone items = None.
Proof.
  intros Hall. destruct (List.find is_timezone items) as [s|] eqn:Hf;
    [|reflexivity].
  apply find_some in Hf as [Hin Hp].
  unfold is_timezone in Hp. apply String.eqb_eq in Hp.
  destruct (Hall s Hin Hp).
Qed.

(** X9. The default time zone is the value of the first setting whose id is
    ["timezone"]: settings before it with other ids, and any setting after
    it, are not looked at. *)
Theorem default_timezone_first {R : Type} (service : Service R)
    (before after : list Setting) (s : Setting) :
  settings_list service = Ok (before ++ s :: after)%list ->
  (forall s', In s' before -> setting_id s' <> "timezone") ->
  setting_id s = "timezone" ->
  default_timezone service = Ok (setting_value s).
Proof.
  intros Hitems Hbefore Hid.
  rewrite (default_timezone_find service _ Hitems). clear Hitems.
  induction before as [|b before IH]; cbn [app List.find].
  - unfold is_timezone at 1. rewrite Hid. reflexivity.
  - assert (Hb : is_timezone b = false).
    { unfold is_timezone. apply String.eqb_neq. apply Hbefore. left. reflexivity. }
    rewrite Hb. apply IH.
    intros s' Hin. apply Hbefore. right. exact Hin.
Qed.

Lemma default_timezone_first_witness :
  default_timezone three_zones = Ok "Europe/Paris".
Proof.
  apply (default_timezone_first three_zones [mkSetting "locale" "en"]
           [mkSetting "timezone" "Asia/Tokyo"]
           (mkSetting "timezone" "Europe/Paris")).
  - reflexivity.
  - intros s' [<- | []]. discriminate.
  - reflexivity.
Defined.

(** X10. When the settings hold no ["timezone"] item, [df_cal_format], and
    with it the whole run, raises IndexError, whatever the rows are and
    whatever the calendar list would have answered: the calendar list is not
    fetched and nothing is submitted. *)
Theorem no_timezone_setting_IndexError {R : Type} (service : Service R)
    (items : list Setting) (df : list Row) :
  settings_list service = Ok items ->
  (forall s, In s items -> setting_id s <> "timezone") ->
  default_timezone service = Raise IndexError
  /\ df_cal_format df service = Raise IndexError
  /\ xlsx_to_calendar df service = Raise IndexError.
Proof.
  intros Hitems Hnone.
  assert (Htz : default_timezone service = Raise IndexError).
  { rewrite (default_timezone_find service _ Hitems).
    rewrite find_is_timezone_None by exact Hnone. reflexivity. }
  split; [exact Htz|].
  assert (Hdf : df_cal_format df service = Raise IndexError).
  { unfold df_cal_format. rewrite Htz. reflexivity. }
  split; [exact Hdf|].
  unfold xlsx_to_calendar. rewrite Hdf. reflexivity.
Qed.

Lemma no_timezone_setting_IndexError_witness :
  default_timezone no_zone = Raise IndexError
  /\ df_cal_format [conference; no_start_date] no_zone = Raise IndexError
  /\ xlsx_to_calendar [conference; no_start_date] no_zone = Raise IndexError.
Proof.
  apply (no_timezone_setting_IndexError no_zone
           [mkSetting "locale" "en"; mkSetting "weekStart" "1"]).
  - reflexivity.
  - intros s [<- | [<- | []]]; discriminate.
Defined.

(** ** The whole run *)

(** X11. In the DataFrame returned by [df_cal_format], a row whose calendar
    name is not ["Primary"] has the id that the list of editable calendars
    gives to that name: the id of the last calendar of that name among those
    with role ["owner"] or ["writer"], and a blank when there is none. *)
Theorem other_names_resolve_to_fetched_ids {R : Type} (service : Service R)
    (items : list CalendarListEntry) (df : list Row)
    (out : list FormattedRow) :
  calendarList_list service = Ok items ->
  df_cal_format df service = Ok out ->
  Forall2
    (fun row frow =>
       forall name,
         Calendar_Name row = Some name -> name <> "Primary" ->
         id frow = cal_id <$> last_named name (List.filter editable items))
    df out.
Proof.
  intros Hitems Hout.
  destruct (df_cal_format_Ok service df out Hout)
    as (tz & cals & _ & Hcals & Hall).
  unfold linked_calendars in Hcals. rewrite Hitems in Hcals.
  cbn [bind] in Hcals. injection Hcals as <-.
  change (fun cal : CalendarListEntry =>
            bool_decide (cal_accessRole cal ∈ access_roles)) with editable in Hall.
  eapply Forall2_impl; [exact Hall|].
  intros row frow (_ & Hid & _) name Hname Hne.
  rewrite Hid. cbn [fill_defaults Calendar_Name]. rewrite Hname.
  cbn [fillna map_calendars].
  rewrite lookup_insert_ne by (intros Heq; apply Hne; symmetry; exact Heq).
  apply dict_of_calendars_last_wins_gen.
Qed.

Lemma other_names_resolve_to_fetched_ids_witness :
  Forall2
    (fun row frow =>
       forall name,
         Calendar_Name row = Some name -> name <> "Primary" ->
         id frow
         = cal_id <$>
             last_named name
               (List.filter editable
                  [mkCal "Team" "first@group.calendar.google.com" "owner";
                   mkCal "Team" "second@group.calendar.google.com" "reader";
                   mkCal "Team" "third@group.calendar.google.com" "writer";
                   mkCal "Holidays" "holidays@group.calendar.google.com" "reader"]))
    [day_row (Some "Team"); day_row (Some "Holidays")]
    [day_frow "Team" (Some "third@group.calendar.google.com");
     day_frow "Holidays" None].
Proof.
  apply (other_names_resolve_to_fetched_ids three_zones).
  - reflexivity.
  - vm_compute. reflexivity.
Defined.

Lemma apply_rows_Forall2_iff {A B : Type} (f : A -> result B) df out :
  Forall2 (fun r y => f r = Ok y) df out -> apply_rows f df = Ok out.
Proof.
  induction 1 as [|r y df' out' Hr _ IH]; cbn; [reflexivity|].
  rewrite Hr, IH. reflexivity.
Qed.

(** X12. When the run returns, it returns one answer per row, in the order
    of the rows, and the answer for a row is the service's answer to the
    insertion of this body: the row's summary as it is (a blank one is
    submitted as a blank), its description or the empty string, and the
    start and end that [format_date] gives for the row with its defaults
    filled; the calendar id is the one looked up for the row's calendar name,
    ["Primary"] when the cell is blank. *)
Theorem xlsx_to_calendar_results {R : Type} (service : Service R)
    (df : list Row) (results : list R) :
  xlsx_to_calendar df service = Ok results ->
  exists tz cals,
    default_timezone service = Ok tz
    /\ linked_calendars service true = Ok cals
    /\ Forall2
         (fun row res =>
            exists s e,
              format_date (fill_defaults tz row) = Ok (s, e)
              /\ events_insert service
                   ((<[ "Primary" := "primary" ]> cals)
                      !! default "Primary" (Calendar_Name row))
                   (mkBody (of_cell (summary row))
                      (JStr (default EmptyString (description row))) s e)
                 = Ok res)
         df results.
Proof.
  unfold xlsx_to_calendar.
  destruct (df_cal_format df service) as [out|err] eqn:Hout; cbn [bind];
    [|discriminate].
  intros Hres. apply apply_rows_Ok in Hres.
  destruct (df_cal_format_Ok service df out Hout)
    as (tz & cals & Htz & Hcals & Hall).
  exists tz, cals. split; [exact Htz|]. split; [exact Hcals|].
  clear Hout. revert results Hres.
  induction Hall as [|row frow df' out' (Hcells & Hid & Hfd) _ IH];
    intros results Hres; inversion Hres as [|? res ? results' Hins Hrest];
    subst; constructor; [|apply IH; exact Hrest].
  exists (start frow), (end_ frow). split; [exact Hfd|].
  unfold create_new_event in Hins. rewrite Hid, Hcells in Hins.
  cbn [fill_defaults Calendar_Name summary description map_calendars] in Hins.
  destruct (Calendar_Name row), (description row);
    cbn [fillna default from_option of_cell map_calendars] in *; exact Hins.
Qed.

Lemma xlsx_to_calendar_results_witness :
  exists tz cals,
    default_timezone two_primaries = Ok tz
    /\ linked_calendars two_primaries true = Ok cals
    /\ Forall2
         (fun row res =>
            exists s e,
              format_date (fill_defaults tz row) = Ok (s, e)
              /\ events_insert two_primaries
                   ((<[ "Primary" := "primary" ]> cals)
                      !! default "Primary" (Calendar_Name row))
                   (mkBody (of_cell (summary row))
                      (JStr (default EmptyString (description row))) s e)
                 = Ok res)
         [untitled; day_row (Some "Work")] [tt; tt].
Proof.
  apply (xlsx_to_calendar_results two_primaries). vm_compute. reflexivity.
Defined.

(** ** The effect of a run on the remote calendar *)

Lemma apply_rows_one_failure {A B : Type} (f : A -> result B) df e :
  (forall r e', In r df -> f r = Raise e' -> e' = e) ->
  (exists r e', In r df /\ f r = Raise e') ->
  apply_rows f df = Raise e.
Proof.
  intros Hsame (r & e' & Hin & Hr).
  destruct (apply_rows f df) as [out|e''] eqn:Happ.
  - apply apply_rows_Ok in Happ. exfalso.
    induction Happ as [|x y df' out' Hx _ IH]; [destruct Hin|].
    destruct Hin as [<- | Hin].
    + rewrite Hr in Hx. discriminate.
    + apply IH; [|exact Hin]. intros; eapply Hsame; [right|]; eassumption.
  - apply apply_rows_Raise in Happ as (r' & Hin' & Hr').
    f_equal. eapply Hsame; eassumption.
Qed.

(** X14. Every row is validated before the first one is submitted: when
    the two fetches succeed, the rows are well formed and some row has a
    blank Start Date, the run raises the missing-Start-Date exception and the
    remote calendar is left in the state it was in, the rows before the
    faulty one included. *)
Theorem blank_start_date_submits_nothing {R S : Type}
    (insert : S -> option string -> EventBody -> S * result R)
    (settings : result (list Setting))
    (calendars : result (list CalendarListEntry))
    (df : list Row) (st : S) (tz : string) (cals : gmap string string) :
  default_timezone (service_at insert settings calendars st) = Ok tz ->
  linked_calendars (service_at insert settings calendars st) true = Ok cals ->
  (forall row, In row df -> row_ok row = true) ->
  (exists row, In row df /\ Start_Date row = None) ->
  run_xlsx_to_calendar insert settings calendars df st
  = (st, Raise MissingRequiredField).
Proof.
  intros Htz Hcals Hok (bad & Hin & Hbad).
  unfold run_xlsx_to_calendar.
  assert (Hdf : df_cal_format df (service_at insert settings calendars st)
                = Raise MissingRequiredField).
  { unfold df_cal_format. rewrite Htz, Hcals. cbn [bind].
    rewrite apply_rows_map. apply apply_rows_one_failure.
    - intros row e' Hrow Hfail.
      pose proof (format_date_well_formed (fill_defaults tz row)
                    (Hok row Hrow)) as Hcase.
      destruct (Start_Date (fill_defaults tz row)).
      + destruct Hcase as (s & e & Hse). rewrite Hse in Hfail.
        discriminate.
      + rewrite Hcase in Hfail. cbn in Hfail. congruence.
    - exists bad, MissingRequiredField. split; [exact Hin|].
      unfold format_date. cbn [fill_defaults Start_Date]. rewrite Hbad.
      reflexivity. }
  rewrite Hdf. reflexivity.
Qed.

Lemma blank_start_date_submits_nothing_witness :
  run_xlsx_to_calendar recording paris_settings work_calendars
    [day_row (Some "Work"); no_start_date; day_row None] []
  = ([], Raise MissingRequiredField).
Proof.
  apply (blank_start_date_submits_nothing recording paris_settings
           work_calendars _ [] "Europe/Paris"
           (dict_of_calendars
              [mkCal "Work" "work@group.calendar.google.com" "owner"])).
  - reflexivity.
  - vm_compute. reflexivity.
  - intros row [<- | [<- | [<- | []]]]; reflexivity.
  - exists no_start_date. split; [right; left|]; reflexivity.
Defined.

(** X15. Nothing is rolled back: when the submission of the rows raises,
    the rows before the failing one have been inserted, each with success,
    the failing insertion is the last call made, and the rows after it are
    not submitted. *)
Theorem submit_rows_stops_at_first_failure {R S : Type}
    (insert : S -> option string -> EventBody -> S * result R)
    (out : list FormattedRow) (st st' : S) (e : exn) :
  submit_rows insert out st = (st', Raise e) ->
  exists (before : list FormattedRow) (row : FormattedRow)
         (after : list FormattedRow) (results : list R) (st1 : S),
    out = (before ++ row :: after)%list
    /\ submit_rows insert before st = (st1, Ok results)
    /\ length results = length before
    /\ insert st1 (id row) (event_dict row) = (st', Raise e).
Proof.
  revert st. induction out as [|row rest IH]; intros st; cbn [submit_rows].
  - intros [= _ ?].
  - destruct (insert st (id row) (event_dict row)) as [st1 [res|e1]] eqn:Hins.
    + destruct (submit_rows insert rest st1) as [st2 [results|e2]] eqn:Hrest;
        [intros [= _ ?]|].
      intros [= -> ->].
      destruct (IH st1 Hrest) as (before & r & after & results & stk & -> & Hb & Hlen & Hr).
      exists (row :: before), r, after, (res :: results), stk.
      split; [reflexivity|]. split.
      { cbn [submit_rows]. rewrite Hins, Hb. reflexivity. }
      split; [cbn; f_equal; exact Hlen | exact Hr].
    + intros [= -> ->].
      exists [], row, rest, [], st. repeat split. exact Hins.
Qed.

Lemma submit_rows_stops_at_first_failure_witness :
  exists (before : list FormattedRow) (row : FormattedRow)
         (after : list FormattedRow) (results : list unit)
         (st1 : list (option string * EventBody)),
    [day_frow "Work" (Some "work@group.calendar.google.com");
     day_frow "work" None;
     day_frow "Primary" (Some "primary")]
    = (before ++ row :: after)%list
    /\ submit_rows recording before [] = (st1, Ok results)
    /\ length results = length before
    /\ recording st1 (id row) (event_dict row)
       = ([(Some "work@group.calendar.google.com",
            event_dict (day_frow "Work" (Some "work@group.calendar.google.com")));
           (None, event_dict (day_frow "work" None))],
          Raise (HttpError "Missing required parameter calendarId")).
Proof.
  apply (submit_rows_stops_at_first_failure recording). reflexivity.
Defined.

(** X16. When the submission of the rows returns, every row has been
    inserted once, in the order of the rows: there is one answer per row and
    the remote calendar is in the state reached by the insertions of all the
    rows, one after the other. *)
Theorem submit_rows_inserts_every_row {R S : Type}
    (insert : S -> option string -> EventBody -> S * result R)
    (out : list FormattedRow) (st st' : S) (results : list R) :
  submit_rows insert out st = (st', Ok results) ->
  length results = length out
  /\ st' = fold_left
             (fun s row => fst (insert s (id row) (event_dict row))) out st
  /\ forall (k : nat) (row : FormattedRow) (res : R),
       nth_error out k = Some row -> nth_error results k = Some res ->
       snd (insert
              (fold_left
                 (fun s row => fst (insert s (id row) (event_dict row)))
                 (firstn k out) st)
              (id row) (event_dict row))
       = Ok res.
Proof.
  revert st results. induction out as [|row rest IH]; intros st results;
    cbn [submit_rows].
  - intros [= <- <-]. repeat split. intros [|k] ? ? H; discriminate H.
  - destruct (insert st (id row) (event_dict row)) as [st1 [res|e1]] eqn:Hins;
      [|intros [= _ ?]].
    destruct (submit_rows insert rest st1) as [st2 [results'|e2]] eqn:Hrest;
      [|intros [= _ ?]].
    intros [= <- <-].
    destruct (IH st1 results' Hrest) as (Hlen & Hst & Hnth).
    split; [cbn; f_equal; exact Hlen|].
    split; [cbn [fold_left]; rewrite Hins; exact Hst|].
    intros [|k] r x Hr Hx.
    + cbn in Hr, Hx. injection Hr as <-. injection Hx as <-.
      cbn [firstn fold_left]. rewrite Hins. reflexivity.
    + cbn in Hr, Hx. cbn [firstn fold_left]. rewrite Hins. cbn [fst].
      apply Hnth; assumption.
Qed.

Lemma submit_rows_inserts_every_row_witness :
  length [tt; tt] = length [day_frow "Work" (Some "work@group.calendar.google.com");
                            day_frow "Primary" (Some "primary")]
  /\ [(Some "work@group.calendar.google.com",
       event_dict (day_frow "Work" (Some "work@group.calendar.google.com")));
      (Some "primary", event_dict (day_frow "Primary" (Some "primary")))]
     = fold_left
         (fun s row => fst (recording s (id row) (event_dict row)))
         [day_frow "Work" (Some "work@group.calendar.google.com");
          day_frow "Primary" (Some "primary")] []
  /\ forall (k : nat) (row : FormattedRow) (res : unit),
       nth_error [day_frow "Work" (Some "work@group.calendar.google.com");
                  day_frow "Primary" (Some "primary")] k = Some row ->
       nth_error [tt; tt] k = Some res ->
       snd (recording
              (fold_left
                 (fun s row => fst (recording s (id row) (event_dict row)))
                 (firstn k [day_frow "Work" (Some "work@group.calendar.google.com");
                            day_frow "Primary" (Some "primary")]) [])
              (id row) (event_dict row))
       = Ok res.
Proof.
  apply (submit_rows_inserts_every_row recording). reflexivity.
Defined.

(** The two readings of the run agree on a service whose answers do not
    depend on what was inserted before. *)
Lemma run_agrees_with_xlsx_to_calendar {R S : Type} (service : Service R)
    (df : list Row) (st : S) :
  run_xlsx_to_calendar
    (fun (s : S) cal_id body => (s, events_insert service cal_id body))
    (settings_list service) (calendarList_list service) df st
  = (st, xlsx_to_calendar df service).
Proof.
  unfold run_xlsx_to_calendar, xlsx_to_calendar, service_at. cbn [snd].
  assert (Hsame : mkService (settings_list service) (calendarList_list service)
                    (fun cal_id body => events_insert service cal_id body)
                  = service) by (destruct service; reflexivity).
  rewrite Hsame.
  destruct (df_cal_format df service) as [out|e]; cbn [bind]; [|reflexivity].
  induction out as [|row rest IH]; cbn [submit_rows apply_rows];
    [reflexivity|].
  unfold create_new_event at 1. fold (event_dict row).
  destruct (events_insert service (id row) (event_dict row)) as [res|e];
    cbn [bind]; [|reflexivity].
  rewrite IH.
  destruct (apply_rows (fun row0 => create_new_event row0 service) rest);
    reflexivity.
Qed.

(** ** Credentials *)

(** X18. When [get_calendar_service] returns a service, [token.json] holds
    credentials afterwards, and they are the ones the service was built
    with, whether they were read from the file, refreshed or obtained by the
    login flow. *)
Theorem get_calendar_service_saves_used_credentials {Creds Svc : Type}
    (env : AuthEnv Creds Svc) (token_json token_json' : option Creds)
    (service : Svc) :
  get_calendar_service env token_json = (token_json', Ok (Some service)) ->
  exists c, token_json' = Some c /\ build env c = Ok service.
Proof.
  unfold get_calendar_service.
  set (finish := fun (c : Creds) =>
         match build env c with
         | Ok service => Ok (Some service)
         | Raise (HttpError _) => Ok None
         | Raise e => Raise e
         end).
  assert (Hfinish : forall c, finish c = Ok (Some service) ->
                              build env c = Ok service).
  { intros c. unfold finish. destruct (build env c) as [svc|[]]; congruence. }
  destruct token_json as [c|].
  - destruct (creds_valid env c).
    + intros [= <- H]. exists c. split; [reflexivity | apply Hfinish, H].
    + destruct (creds_expired env c && creds_refresh_token env c).
      * destruct (creds_refresh env c) as [c'|e]; cbn [bind];
          [|intros [= _ ?]].
        intros [= <- H]. exists c'. split; [reflexivity | apply Hfinish, H].
      * destruct (run_local_server env) as [c'|e]; cbn [bind];
          [|intros [= _ ?]].
        intros [= <- H]. exists c'. split; [reflexivity | apply Hfinish, H].
  - destruct (run_local_server env) as [c'|e]; cbn [bind]; [|intros [= _ ?]].
    intros [= <- H]. exists c'. split; [reflexivity | apply Hfinish, H].
Qed.

Lemma get_calendar_service_saves_used_credentials_witness :
  exists c, Some (false, Some 8%nat) = Some c
            /\ build (toy_auth (fun n => Ok "calendar v3")) c = Ok "calendar v3".
Proof.
  apply (get_calendar_service_saves_used_credentials
           (toy_auth (fun n => Ok "calendar v3")) (Some (true, Some 7%nat))).
  reflexivity.
Defined.

(** X19. [get_calendar_service] returns [None], without raising, exactly
    when [build] raised an HttpError on the credentials that it ended up
    with, and those credentials are in [token.json] all the same. *)
Theorem get_calendar_service_None {Creds Svc : Type}
    (env : AuthEnv Creds Svc) (token_json token_json' : option Creds) :
  get_calendar_service env token_json = (token_json', Ok None) ->
  exists c msg,
    token_json' = Some c /\ build env c = Raise (HttpError msg).
Proof.
  unfold get_calendar_service.
  set (finish := fun (c : Creds) =>
         match build env c with
         | Ok service => Ok (Some service)
         | Raise (HttpError _) => Ok None
         | Raise e => Raise e
         end).
  assert (Hfinish : forall c, finish c = Ok None ->
                              exists msg, build env c = Raise (HttpError msg)).
  { intros c. unfold finish.
    destruct (build env c) as [svc|[]]; try discriminate; eauto. }
  destruct token_json as [c|].
  - destruct (creds_valid env c).
    + intros [= <- H]. destruct (Hfinish c H) as [msg Hb]. eauto.
    + destruct (creds_expired env c && creds_refresh_token env c).
      * destruct (creds_refresh env c) as [c'|e]; cbn [bind];
          [|intros [= _ ?]].
        intros [= <- H]. destruct (Hfinish c' H) as [msg Hb]. eauto.
      * destruct (run_local_server env) as [c'|e]; cbn [bind];
          [|intros [= _ ?]].
        intros [= <- H]. destruct (Hfinish c' H) as [msg Hb]. eauto.
  - destruct (run_local_server env) as [c'|e]; cbn [bind]; [|intros [= _ ?]].
    intros [= <- H]. destruct (Hfinish c' H) as [msg Hb]. eauto.
Qed.

Lemma get_calendar_service_None_witness :
  exists c msg,
    Some (false, Some O) = Some c
    /\ build (toy_auth (fun n => Raise (HttpError "503"))) c
       = Raise (HttpError msg).
Proof.
  apply (get_calendar_service_None
           (toy_auth (fun n => Raise (HttpError "503"))) None).
  reflexivity.
Defined.

(** X20. Credentials are replaced only when they have to be.  Stored
    credentials that are valid leave [token.json] untouched.  On stored
    credentials that are not valid but expired with a refresh token, only the
    refresh is tried: when it raises, that exception is raised and the file
    is untouched, whatever a login would give.  Otherwise only the login is
    tried, and when it raises, that exception is raised and the file is
    untouched.  A rewritten file holds the credentials that the step that
    was tried returned. *)
Theorem get_calendar_service_keeps_token {Creds Svc : Type}
    (env : AuthEnv Creds Svc) (token_json token_json' : option Creds)
    (res : result (option Svc)) :
  get_calendar_service env token_json = (token_json', res) ->
  (forall c, token_json = Some c -> creds_valid env c = true ->
             token_json' = token_json)
  /\ (forall c e,
        refresh_path env token_json c ->
        creds_refresh env c = Raise e ->
        token_json' = token_json /\ res = Raise e)
  /\ (forall e,
        login_path env token_json ->
        run_local_server env = Raise e ->
        token_json' = token_json /\ res = Raise e)
  /\ (token_json' <> token_json ->
      (exists c c',
         refresh_path env token_json c
         /\ creds_refresh env c = Ok c' /\ token_json' = Some c')
      \/ (exists c',
            login_path env token_json
            /\ run_local_server env = Ok c' /\ token_json' = Some c')).
Proof.
  unfold get_calendar_service, refresh_path, login_path.
  destruct token_json as [c|].
  - destruct (creds_valid env c) eqn:Hv.
    + intros [= <- _]. split; [reflexivity|].
      split; [intros c0 e ([= <-] & Hv' & _); congruence|].
      split; [intros e [Hnone | (c0 & [= <-] & Hv' & _)]; congruence|].
      intros Hne. destruct Hne. reflexivity.
    + destruct (creds_expired env c && creds_refresh_token env c) eqn:Hx.
      * destruct (creds_refresh env c) as [c'|e0] eqn:Hr; cbn [bind];
          intros [= <- <-].
        -- split; [intros c0 [= <-]; congruence|].
           split; [intros c0 e ([= <-] & _ & _) He; congruence|].
           split; [intros e [Hnone | (c0 & [= <-] & _ & Hx')]; congruence|].
           intros _. left. exists c, c'. repeat split; assumption.
        -- split; [intros c0 [= <-]; congruence|].
           split.
           { intros c0 e ([= <-] & _ & _) He. rewrite Hr in He.
             injection He as <-. split; reflexivity. }
           split; [intros e [Hnone | (c0 & [= <-] & _ & Hx')]; congruence|].
           intros Hne. destruct Hne. reflexivity.
      * destruct (run_local_server env) as [c'|e0] eqn:Hl; cbn [bind];
          intros [= <- <-].
        -- split; [intros c0 [= <-]; congruence|].
           split; [intros c0 e ([= <-] & _ & Hx'); congruence|].
           split; [intros e _ He; congruence|].
           intros _. right. exists c'. split; [|split; reflexivity].
           right. exists c. repeat split; assumption.
        -- split; [intros c0 [= <-]; congruence|].
           split; [intros c0 e ([= <-] & _ & Hx'); congruence|].
           split.
           { intros e _ [= <-]. split; reflexivity. }
           intros Hne. destruct Hne. reflexivity.
  - destruct (run_local_server env) as [c'|e0] eqn:Hl; cbn [bind];
      intros [= <- <-].
    + split; [intros c0 [=]|].
      split; [intros c0 e ([=] & _)|].
      split; [intros e _ He; congruence|].
      intros _. right. exists c'. split; [left; reflexivity|].
      split; reflexivity.
    + split; [intros c0 [=]|].
      split; [intros c0 e ([=] & _)|].
      split.
      { intros e _ [= <-]. split; reflexivity. }
      intros Hne. destruct Hne. reflexivity.
Qed.

Lemma get_calendar_service_keeps_token_witness :
  Some (true, Some 7%nat) = Some (true, Some 7%nat)
  /\ @Raise (option string) (Exception "invalid_grant")
     = Raise (Exception "invalid_grant").
Proof.
  destruct (get_calendar_service_keeps_token refresh_fails
              (Some (true, Some 7%nat)) (Some (true, Some 7%nat))
              (Raise (Exception "invalid_grant")) eq_refl)
    as (_ & Hrefresh & _).
  apply (Hrefresh (true, Some 7%nat) (Exception "invalid_grant")).
  - repeat split.
  - reflexivity.
Defined.

(** A refresh that raises is not followed by a login: the exception is
    raised and the stored credentials stay, although the login would
    succeed. *)
Example failed_refresh_is_not_followed_by_login :
  run_local_server refresh_fails = Ok (false, Some O)
  /\ get_calendar_service refresh_fails (Some (true, Some 7%nat))
     = (Some (true, Some 7%nat), Raise (Exception "invalid_grant")).
Proof. split; reflexivity. Qed.

(** ** The diagnostic listing of events *)

(** X21. An event whose start is a side returned by [format_date] is
    listed with a string, never with [None]: the ["dateTime"] string for a
    timed row, the ["date"] string for an all-day row. *)
Theorem shown_start_of_format_date (row : Row) (s e : gmap string jvalue)
    (title : string) :
  format_date row = Ok (s, e) ->
  exists str,
    shown_start (mkEvent s title) = Some (JStr str)
    /\ (Start_Time row = None -> wire_string "date" s = Some str)
    /\ (is_Some (Start_Time row) -> wire_string "dateTime" s = Some str)
    /\ print_upcoming_events (Ok [mkEvent s title]) 5
       = (["Getting the upcoming 5 events"; (str ++ " " ++ title)%string],
          Ok tt).
Proof.
  unfold format_date.
  destruct (Start_Date row) as [d|]; [|discriminate].
  destruct (Start_Time row) as [t|].
  - destruct (Datetime.new _ _ _ _ _) as [x|]; cbn [bind]; [|discriminate].
    destruct (match End_Time row with Some _ => _ | None => _ end) as [x'|];
      cbn [bind]; [|discriminate].
    intros [= <- <-]. fold (timed_side x (Start_Time_Zone row)).
    exists (Datetime.isoformat x).
    unfold print_upcoming_events, shown_start, wire_string.
    cbn [event_start event_summary map]. unfold shown_start.
    cbn [event_start]. rewrite !timed_side_dateTime.
    split; [reflexivity|]. split; [intros Hnone; discriminate Hnone|].
    split; reflexivity.
  - intros [= <- <-].
    exists (Date.isoformat (Timestamp.date d)).
    unfold print_upcoming_events, shown_start, wire_string.
    cbn [event_start event_summary map]. unfold shown_start.
    cbn [event_start].
    rewrite !(lookup_singleton_ne "date" "dateTime") by discriminate.
    rewrite !lookup_singleton_eq.
    split; [reflexivity|]. split; [reflexivity|].
    split; [intros [? Hsome]; discriminate Hsome | reflexivity].
Qed.

Lemma shown_start_of_format_date_witness :
  exists str,
    shown_start (mkEvent {[ "date" := JStr "2024-03-01" ]} "Trip")
    = Some (JStr str)
    /\ (Start_Time three_days = None ->
        wire_string "date" {[ "date" := JStr "2024-03-01" ]} = Some str)
    /\ (is_Some (Start_Time three_days) ->
        wire_string "dateTime" {[ "date" := JStr "2024-03-01" ]} = Some str)
    /\ print_upcoming_events
         (Ok [mkEvent {[ "date" := JStr "2024-03-01" ]} "Trip"]) 5
       = (["Getting the upcoming 5 events"; (str ++ " " ++ "Trip")%string],
          Ok tt).
Proof.
  apply (shown_start_of_format_date three_days
           {[ "date" := JStr "2024-03-01" ]} {[ "date" := JStr "2024-03-03" ]}).
  reflexivity.
Defined.
